(** * financial_analyzer: metrics derivation, signal detection and the
      idempotent upsert store

    A shallow embedding of [src/database.py] and [src/main.py], with the
    Indicator Processor and the Signal Detector (whose modules,
    [processor.py] and [signals.py], are imported by [main.py] but are not
    part of the sources at hand) modelled from the written specification.

    Layout: the definitions come first (Python values and the runtime, the
    processor, the detector, the SQLite store, the pipeline), the theorems
    follow, one module of facts per component. *)

From Stdlib Require Import ZArith QArith String Lia.
From stdpp Require Import base option list gmap strings pretty.

(* ================================================================== *)
(** * Part I: definitions                                              *)
(* ================================================================== *)

(** ** The Indicator Processor *)

Module Processor.

(** A calendar date, as its proleptic ordinal. *)
Definition Date := Z.

(** Modelled from the spec: the RawBar of section 3, one trading day of
    raw input; numeric fields may be absent. *)
Record RawBar := mkRawBar {
  rb_date : Date;
  rb_open : option Q;
  rb_high : option Q;
  rb_low : option Q;
  rb_close : option Q;
  rb_volume : option Z;
  rb_price_to_book : option Q;
  rb_bvps : option Q;
  rb_enterprise_value : option Q
}.

(** Modelled from the spec: the MetricRecord of section 3, every
    [RawBar] field plus the two averages. *)
Record MetricRecord := mkMetricRecord {
  mr_date : Date;
  mr_open : option Q;
  mr_high : option Q;
  mr_low : option Q;
  mr_close : option Q;
  mr_volume : option Z;
  mr_sma50 : option Q;
  mr_sma200 : option Q;
  mr_price_to_book : option Q;
  mr_bvps : option Q;
  mr_enterprise_value : option Q
}.

Definition sumQ (xs : list Q) : Q := foldr Qplus 0%Q xs.

Definition mean (xs : list Q) : Q :=
  (sumQ xs / inject_Z (Z.of_nat (length xs)))%Q.

(** Modelled from the spec: the average of one trailing window
    (section 4.1), undefined while the window is not full, and undefined
    as soon as one value in it is missing. *)
Definition window_mean (w : nat) (win : list (option Q)) : option Q :=
  if decide (length win < w)%nat then None
  else mean <$> mapM id win.

(** Modelled from the spec: [processor.py] is missing from the sources;
    this is the rolling pass of section 4.1. The values seen so far are
    kept in [seen]; position by position the window is the last [w] of
    them, the current value included. *)
Fixpoint rolling (w : nat) (seen xs : list (option Q)) : list (option Q) :=
  match xs with
  | [] => []
  | x :: rest =>
      let seen' := seen ++ [x] in
      window_mean w (drop (length seen' - w) seen') :: rolling w seen' rest
  end.

Definition sma (w : nat) (xs : list (option Q)) : list (option Q) :=
  rolling w [] xs.

Definition enrich (bar : RawBar) (avg : option Q * option Q) : MetricRecord :=
  {| mr_date := rb_date bar;
     mr_open := rb_open bar;
     mr_high := rb_high bar;
     mr_low := rb_low bar;
     mr_close := rb_close bar;
     mr_volume := rb_volume bar;
     mr_sma50 := avg.1;
     mr_sma200 := avg.2;
     mr_price_to_book := rb_price_to_book bar;
     mr_bvps := rb_bvps bar;
     mr_enterprise_value := rb_enterprise_value bar |}.

(** Modelled from the spec: [process_data] of the missing
    [processor.py], as the contract [process] of section 4.1: the
    fundamentals pass through, [sma50] and [sma200] are the 50- and
    200-record trailing means of [close]. *)
Definition process (raw_series : list RawBar) : list MetricRecord :=
  let closes := rb_close <$> raw_series in
  zip_with enrich raw_series (zip (sma 50 closes) (sma 200 closes)).

End Processor.

(** ** The Signal Detector *)

Module Signals.
Import Processor.

Definition both_defined (r : MetricRecord) : option (Q * Q) :=
  s ← mr_sma50 r; l ← mr_sma200 r; Some (s, l).

(** Modelled from the spec: the golden cross of section 4.2 between two
    consecutive records: the short average goes from at-or-below to
    strictly above the long one. An index
    where an average is undefined on either side is not eligible.
    [negb (Qle_bool a b)] is the strict [b < a]. *)
Definition is_golden (prev cur : MetricRecord) : bool :=
  match both_defined prev, both_defined cur with
  | Some (s0, l0), Some (s1, l1) =>
      Qle_bool s0 l0 && negb (Qle_bool s1 l1)
  | _, _ => false
  end.

(** Modelled from the spec: the death cross of section 4.2, the mirror
    condition. *)
Definition is_death (prev cur : MetricRecord) : bool :=
  match both_defined prev, both_defined cur with
  | Some (s0, l0), Some (s1, l1) =>
      Qle_bool l0 s0 && negb (Qle_bool l1 s1)
  | _, _ => false
  end.

(** The dates of the records that complete a transition, scanning the
    consecutive pairs of the series in order. *)
Fixpoint transitions (test : MetricRecord → MetricRecord → bool)
    (prev : MetricRecord) (rest : list MetricRecord) : list Date :=
  match rest with
  | [] => []
  | cur :: rest' =>
      (if test prev cur then [mr_date cur] else [])
        ++ transitions test cur rest'
  end.

Definition detect (test : MetricRecord → MetricRecord → bool)
    (series : list MetricRecord) : list Date :=
  match series with
  | [] => []
  | first :: rest => transitions test first rest
  end.

(** Modelled from the spec: [detect_golden_crossover] of the missing
    [signals.py], as section 4.2 states it. *)
Definition detect_golden_crossover : list MetricRecord → list Date :=
  detect is_golden.

(** Modelled from the spec: [detect_death_cross] of the missing
    [signals.py], as section 4.2 states it. *)
Definition detect_death_cross : list MetricRecord → list Date :=
  detect is_death.

(** The ordering invariant of a metric series (section 3): strictly
    ascending dates, hence no date twice. *)
Fixpoint ascending (series : list MetricRecord) : Prop :=
  match series with
  | [] => True
  | r :: rest => Forall (λ r', mr_date r < mr_date r')%Z rest ∧ ascending rest
  end.

End Signals.

(** ** Python values, dictionaries and data frames *)

Module Python.

(** The values that reach the store. A float is the rational it
    denotes, NaN apart; a [datetime.date] is its ordinal, a
    [datetime.datetime] its count of microseconds, a [bytes] its
    content; every other object (a dict, a list, a pandas [Timestamp]
    or [NaT]) is [PObject]. *)
Inductive pyval :=
| PNone
| PNaN
| PInt (z : Z)
| PFloat (q : Q)
| PStr (s : string)
| PDate (ordinal : Z)
| PDatetime (stamp : Z)
| PBytes (b : string)
| PObject (tag : string).

#[global] Instance Q_eq_dec : EqDecision Q.
Proof. solve_decision. Defined.

#[global] Instance pyval_eq_dec : EqDecision pyval.
Proof. solve_decision. Defined.

(** A [dict] with string keys. *)
Abbreviation pydict := (gmap string pyval).

(** [d.get(k)]: [None] when the key is absent. *)
Definition dict_get (d : pydict) (k : string) : pyval :=
  default PNone (d !! k).

(** A [pandas.DataFrame]: its column labels and, per row, the cell of
    each column. *)
Record DataFrame := mkDataFrame {
  columns : list string;
  rows : list pydict
}.

(** What the code asks of Python, pandas and the sqlite3 driver without
    defining it. *)
Class Runtime := {
  (** [pd.to_datetime(col).dt.date] on the cells of one column. pandas
      converts the column as a whole (it settles on one format and one
      timezone for all the cells), so the result of a cell may depend
      on the others; [None] when pandas raises *)
  to_dates : list pyval → option (list pyval);
  (** the converted column has a cell for each cell of the column *)
  to_dates_length col dates :
    to_dates col = Some dates → length dates = length col;
  (** a column without cells converts *)
  to_dates_nil : to_dates [] = Some [];
  (** the builtin [str] *)
  py_str : pyval → string;
  (** [datetime.date.isoformat], which the sqlite3 driver applies to a
      date it is given as a parameter *)
  isoformat : Z → string;
  (** [datetime.datetime.isoformat(" ")], which the driver applies to a
      datetime *)
  isoformat_datetime : Z → string
}.

(** [df[cols]]: the frame cut down to the columns [cols]. *)
Definition select (cols : list string) (df : DataFrame) : DataFrame :=
  {| columns := cols;
     rows := filter (λ kv : string * pyval, kv.1 ∈ cols) <$> rows df |}.

(** [df.to_dict(orient="records")]: one dict per row. pandas walks the
    rows by zipping the column arrays, so a frame without columns
    yields no record at all, whatever its index. *)
Definition to_dict_records (df : DataFrame) : list pydict :=
  match columns df with
  | [] => []
  | _ :: _ => rows df
  end.

End Python.

(** ** The SQLite store of [database.py] *)

Module Store.
Import Python.

(** *** Stored values and rows *)

Inductive sqlval :=
| SNull
| SInteger (z : Z)
| SReal (q : Q)
| SText (s : string)
| SBlob (b : string).

#[global] Instance sqlval_eq_dec : EqDecision sqlval.
Proof. solve_decision. Defined.

Definition present (v : sqlval) : bool :=
  match v with SNull => false | _ => true end.

(** The three mapped classes. The [id] column of each is the integer
    primary key, that is SQLite's rowid: a table is the list of its
    rows in rowid order, each paired with its rowid. *)
Record Ticker := mkTicker {
  tk_ticker : sqlval;
  tk_added_at : sqlval;
  tk_info : sqlval
}.

Record DailyMetric := mkDailyMetric {
  dm_ticker : sqlval;
  dm_date : sqlval;
  dm_open : sqlval;
  dm_high : sqlval;
  dm_low : sqlval;
  dm_close : sqlval;
  dm_volume : sqlval;
  dm_sma50 : sqlval;
  dm_sma200 : sqlval;
  dm_price_to_book : sqlval;
  dm_bvps : sqlval;
  dm_enterprise_value : sqlval
}.

Record SignalEvent := mkSignalEvent {
  se_ticker : sqlval;
  se_date : sqlval;
  se_signal_type : sqlval;
  se_meta : sqlval
}.

#[global] Instance Ticker_eq_dec : EqDecision Ticker.
Proof. solve_decision. Defined.
#[global] Instance DailyMetric_eq_dec : EqDecision DailyMetric.
Proof. solve_decision. Defined.
#[global] Instance SignalEvent_eq_dec : EqDecision SignalEvent.
Proof. solve_decision. Defined.

Abbreviation table A := (list (Z * A)).

(** The database file: a relation is [None] until it is created. *)
Record Database := mkDatabase {
  tickers : option (table Ticker);
  daily_metrics : option (table DailyMetric);
  signal_events : option (table SignalEvent)
}.

Definition empty_database : Database :=
  {| tickers := None; daily_metrics := None; signal_events := None |}.

(** [UniqueConstraint("ticker", "date", name="u_ticker_date")]: two
    rows collide when they agree on both columns; SQLite counts NULLs
    as distinct from everything, themselves included. *)
Definition u_ticker_date (a b : DailyMetric) : bool :=
  present (dm_ticker a) && present (dm_date a)
  && bool_decide (dm_ticker a = dm_ticker b)
  && bool_decide (dm_date a = dm_date b).

(** [UniqueConstraint("ticker", "date", "signal_type",
    name="u_signal_unique")]. *)
Definition u_signal_unique (a b : SignalEvent) : bool :=
  present (se_ticker a) && present (se_date a) && present (se_signal_type a)
  && bool_decide (se_ticker a = se_ticker b)
  && bool_decide (se_date a = se_date b)
  && bool_decide (se_signal_type a = se_signal_type b).

(** *** INSERT OR REPLACE *)

Section Table.
Context {A : Type} (conflict : A → A → bool).

(** A row inserted without an [id] gets the largest rowid in use plus
    one (taken before the rows it replaces are deleted), and 1 in an
    empty relation. The code never gives an [id] of its own, so the
    rowids of its relations count up from 1; the largest 64-bit rowid,
    past which SQLite looks for an unused one at random, is out of
    reach and is not modelled. *)
Definition next_rowid (t : table A) : Z :=
  match t.*1 with
  | [] => 1
  | i :: ids => 1 + foldr Z.max i ids
  end%Z.

(** [INSERT OR REPLACE]: the rows that collide with the new one on
    the unique constraint are deleted, then the new row is added. *)
Definition replace_into (row : A) (t : table A) : table A :=
  filter (λ r, ¬ conflict row r.2) t ++ [(next_rowid t, row)].
End Table.

(** What a reader of the relation sees of it: the rows in rowid order,
    without the surrogate rowids, which are no part of the logical
    schema. *)
Definition contents {A : Type} (t : option (table A)) : option (list A) :=
  fmap (M := list) snd <$> t.

Definition observable (db : Database)
    : option (list Ticker) * option (list DailyMetric) * option (list SignalEvent) :=
  (contents (tickers db), contents (daily_metrics db), contents (signal_events db)).

(** *** Errors and results *)

Inductive error :=
| DateParseError     (* pandas could not read a date *)
| SqlSyntaxError     (* an INSERT that names no column *)
| NoSuchTable
| NoSuchColumn
| BindingError       (* a parameter the driver cannot bind, or none given *)
| DiskIOError        (* the storage engine failed *)
| UpstreamError.     (* a collaborator of the pipeline raised *)

Inductive result (A : Type) :=
| Ok (a : A)
| Raise (e : error).
Arguments Ok {A} a.
Arguments Raise {A} e.

(** *** Engine, connection, transaction *)

(** The engine stands for the storage under the database file: it
    decides which statement of a connection, counted from 0, meets an
    I/O failure. (A failure of the commit itself would leave the file as
    it was, as a rollback does, and is not told apart.) *)
Record Engine := mkEngine { disk_fault : nat → bool }.

Definition reliable (engine : Engine) : Prop :=
  ∀ n, disk_fault engine n = false.

(** A connection: the committed database, the uncommitted state of the
    transaction in progress if there is one, and how many statements
    it has been sent. *)
Record Connection := mkConnection {
  conn_engine : Engine;
  durable : Database;
  pending : option Database;
  sent : nat
}.

Definition connect (engine : Engine) (db : Database) : Connection :=
  {| conn_engine := engine; durable := db; pending := None; sent := 0 |}.

Definition begin (c : Connection) : Connection :=
  {| conn_engine := conn_engine c; durable := durable c;
     pending := Some (durable c); sent := sent c |}.

Definition commit (c : Connection) : Connection :=
  {| conn_engine := conn_engine c;
     durable := default (durable c) (pending c);
     pending := None; sent := sent c |}.

Definition rollback (c : Connection) : Connection :=
  {| conn_engine := conn_engine c; durable := durable c;
     pending := None; sent := sent c |}.

(** Code that runs on a connection and may raise. *)
Definition sql (A : Type) : Type := Connection → result A * Connection.

Definition sql_ret {A} (a : A) : sql A := λ c, (Ok a, c).

Definition sql_bind {A B} (m : sql A) (k : A → sql B) : sql B := λ c,
  match m c with
  | (Ok a, c') => k a c'
  | (Raise e, c') => (Raise e, c')
  end.

Notation "m ;; k" := (sql_bind m (λ _, k))
  (at level 100, k at level 200, right associativity).

(** [for x in xs: body(x)] *)
Fixpoint for_each {A} (body : A → sql unit) (xs : list A) : sql unit :=
  match xs with
  | [] => sql_ret tt
  | x :: rest => body x ;; for_each body rest
  end.

(** [trans.commit()] *)
Definition trans_commit : sql unit := λ c, (Ok tt, commit c).

(** [with conn.begin() as trans: body]: the block's exit commits what
    is still pending, and rolls back when the body raised. *)
Definition with_begin (body : sql unit) : sql unit := λ c,
  match body (begin c) with
  | (Ok _, c') => (Ok tt, commit c')
  | (Raise e, c') => (Raise e, rollback c')
  end.

(** *** Statements *)

Section WithRuntime.
Context `{Runtime}.

(** How the sqlite3 driver binds one parameter: [None] is NULL, and
    so is a NaN; an integer must fit 64 bits; a date and a datetime go
    through their ISO text, bytes are a blob; any other object is
    refused. The value is taken as the driver hands it over: the
    conversion SQLite may then apply for the affinity of the column (a
    text that reads as a number, stored under a [Date] column as that
    number) is not modelled. *)
Definition bind (v : pyval) : option sqlval :=
  match v with
  | PNone | PNaN => Some SNull
  | PInt z =>
      if decide (- 2 ^ 63 ≤ z < 2 ^ 63)%Z then Some (SInteger z) else None
  | PFloat q => Some (SReal q)
  | PStr s => Some (SText s)
  | PDate d => Some (SText (isoformat d))
  | PDatetime stamp => Some (SText (isoformat_datetime stamp))
  | PBytes b => Some (SBlob b)
  | PObject _ => None
  end.

(** The columns of [daily_metrics] that an INSERT may name. *)
Definition daily_metrics_columns : list string :=
  ["ticker"; "date"; "open"; "high"; "low"; "close"; "volume";
   "sma50"; "sma200"; "price_to_book"; "bvps"; "enterprise_value"].

(** The value a column gets from [INSERT ... (keys of r) VALUES
    (:key ...)] run with the dict [r]: the bound parameter when the
    column is named, NULL when it is not. *)
Definition column_value (r : pydict) (c : string) : option sqlval :=
  match r !! c with
  | Some v => bind v
  | None => Some SNull
  end.

Definition daily_metric_of (r : pydict) : option DailyMetric :=
  ticker ← column_value r "ticker";
  date ← column_value r "date";
  open ← column_value r "open";
  high ← column_value r "high";
  low ← column_value r "low";
  close ← column_value r "close";
  volume ← column_value r "volume";
  sma50 ← column_value r "sma50";
  sma200 ← column_value r "sma200";
  price_to_book ← column_value r "price_to_book";
  bvps ← column_value r "bvps";
  enterprise_value ← column_value r "enterprise_value";
  Some (mkDailyMetric ticker date open high low close volume sma50 sma200
          price_to_book bvps enterprise_value).

(** The row of [INSERT OR REPLACE INTO daily_metrics (keys of r)
    VALUES (:key ...)] with parameters [r]. *)
Definition daily_metrics_row (r : pydict) : result DailyMetric :=
  if decide (r = ∅) then Raise SqlSyntaxError
  else if decide (map_Forall (λ c _, c ∈ daily_metrics_columns) r) then
    match daily_metric_of r with
    | Some row => Ok row
    | None => Raise BindingError
    end
  else Raise NoSuchColumn.

(** A named placeholder: its parameter has to be given and to bind. *)
Definition placeholder (params : pydict) (k : string) : option sqlval :=
  params !! k ≫= bind.

(** The row of [INSERT OR REPLACE INTO signal_events (ticker, date,
    signal_type, meta) VALUES (:ticker, :date, :signal_type, :meta)]
    with parameters [params]. *)
Definition signal_events_row (params : pydict) : result SignalEvent :=
  match
    ticker ← placeholder params "ticker";
    date ← placeholder params "date";
    signal_type ← placeholder params "signal_type";
    meta ← placeholder params "meta";
    Some (mkSignalEvent ticker date signal_type meta)
  with
  | Some row => Ok row
  | None => Raise BindingError
  end.

Inductive statement :=
| InsertOrReplaceDailyMetrics (r : pydict)
| InsertOrReplaceSignalEvents (params : pydict).

(** One statement against a database state. *)
Definition run_statement (st : statement) (db : Database) : result Database :=
  match st with
  | InsertOrReplaceDailyMetrics r =>
      match daily_metrics_row r, daily_metrics db with
      | Raise e, _ => Raise e
      | Ok _, None => Raise NoSuchTable
      | Ok row, Some t =>
          Ok {| tickers := tickers db;
                daily_metrics := Some (replace_into u_ticker_date row t);
                signal_events := signal_events db |}
      end
  | InsertOrReplaceSignalEvents params =>
      match signal_events_row params, signal_events db with
      | Raise e, _ => Raise e
      | Ok _, None => Raise NoSuchTable
      | Ok row, Some t =>
          Ok {| tickers := tickers db;
                daily_metrics := daily_metrics db;
                signal_events := Some (replace_into u_signal_unique row t) |}
      end
  end.

(** [conn.execute(sa.text(sql), params)]: the statement runs on the
    pending state of the transaction (one is begun if none is open);
    nothing is durable before a commit. *)
Definition execute (st : statement) : sql unit := λ c,
  let n := sent c in
  let work := default (durable c) (pending c) in
  if disk_fault (conn_engine c) n then
    (Raise DiskIOError,
     {| conn_engine := conn_engine c; durable := durable c;
        pending := Some work; sent := S n |})
  else
    match run_statement st work with
    | Ok work' =>
        (Ok tt,
         {| conn_engine := conn_engine c; durable := durable c;
            pending := Some work'; sent := S n |})
    | Raise e =>
        (Raise e,
         {| conn_engine := conn_engine c; durable := durable c;
            pending := Some work; sent := S n |})
    end.

(** *** The operations of [database.py] *)

(** [Base.metadata.create_all(engine)]: every table that does not
    exist yet is created, empty. *)
Definition init_db (db : Database) : Database :=
  {| tickers := Some (default [] (tickers db));
     daily_metrics := Some (default [] (daily_metrics db));
     signal_events := Some (default [] (signal_events db)) |}.

(** [df["date"]]: the cells of the [date] column, row by row. *)
Definition date_column (df : DataFrame) : list pyval :=
  (λ row, dict_get row "date") <$> rows df.

(** [df2["date"] = pd.to_datetime(df2["date"]).dt.date], done only
    when the frame has a [date] column: the column is converted as a
    whole and its cells are put back row by row. *)
Definition convert_dates (df : DataFrame) : option DataFrame :=
  if decide ("date" ∈ columns df) then
    dates ← to_dates (date_column df);
    Some {| columns := columns df;
            rows := zip_with (λ row d, <["date" := d]> row) (rows df) dates |}
  else Some df.

(** The records [save_daily_metrics] sends to the store: dates
    converted, columns cut down to those of the model that the frame
    has. [None] when the date conversion raises. *)
Definition metric_records (df : DataFrame) : option (list pydict) :=
  df2 ← convert_dates df;
  let cols := filter (λ c, c ∈ columns df2) daily_metrics_columns in
  Some (to_dict_records (select cols df2)).

(** A call's outcome: what it returned or raised, and the database
    it leaves behind (the connection is dropped at the end of the
    call, and with it whatever was still pending). *)
Definition outcome : Type := result unit * Database.

Definition on_connection (engine : Engine) (db : Database)
    (body : sql unit) : outcome :=
  let '(r, c) := body (connect engine db) in (r, durable c).

Definition save_daily_metrics (df : DataFrame) (engine : Engine)
    (db : Database) : outcome :=
  match metric_records df with
  | None => (Raise DateParseError, db)
  | Some [] => (Ok tt, db)
  | Some records =>
      on_connection engine db
        (with_begin
           (for_each (λ r, execute (InsertOrReplaceDailyMetrics r)) records))
  end.

(** The parameters [save_signal_events] passes for one event. *)
Definition event_params (ticker : string) (ev : pydict) : pydict :=
  let d := dict_get ev "date" in
  let ttype := dict_get ev "signal_type" in
  let meta := dict_get ev "meta" in
  {[ "ticker" := PStr ticker; "date" := d; "signal_type" := ttype;
     "meta" := PStr (py_str meta) ]}.

Definition save_signal_events (ticker : string) (events : list pydict)
    (engine : Engine) (db : Database) : outcome :=
  on_connection engine db
    (with_begin
       (for_each (λ ev,
            execute (InsertOrReplaceSignalEvents (event_params ticker ev)))
          events ;;
        trans_commit)).

End WithRuntime.

End Store.

(** ** The pipeline of [main.py] *)

Module Main.
Import Python Store.

Section Run.
Context `{Runtime}.

(** The collaborators [run] calls and [main.py] does not define; each
    yields [None] when it raises. *)
Variable Raw : Type.
Variable fetch_stock_data : string → option Raw.
Variable process_data : Raw → option DataFrame.
Variable detect_golden_crossover : DataFrame → option (list pyval).
Variable detect_death_cross : DataFrame → option (list pyval).
(** [df.assign(date=pd.to_datetime(df["date"]).dt.tz_localize(None))] *)
Variable assign_naive_dates : DataFrame → option DataFrame.
(** [df.assign(date=pd.to_datetime(df["date"]))] *)
Variable assign_datetimes : DataFrame → option DataFrame.
(** [json.dump] of the summary into the output file: done or raised. *)
Variable export_json : string → string → list pydict → bool.

Definition signal (signal_type : string) (d : pyval) : pydict :=
  {[ "date" := d; "signal_type" := PStr signal_type;
     "meta" := PObject "{}" ]}.

(** Everything [run] computes before it touches the store: the
    frame to save and the events. *)
Definition analyse (ticker : string) : option (DataFrame * list pydict) :=
  raw ← fetch_stock_data ticker;
  processed ← process_data raw;
  processed ← assign_naive_dates processed;
  golden_dates ← detect_golden_crossover processed;
  death_dates ← assign_datetimes processed ≫= detect_death_cross;
  let events :=
    (signal "golden_cross" <$> golden_dates)
      ++ (signal "death_cross" <$> death_dates) in
  to_save ← assign_datetimes processed;
  Some (to_save, events).

Definition run (ticker output : string) (initdb : bool)
    (engine : Engine) (db : Database) : outcome :=
  let db0 := if initdb then init_db db else db in
  match analyse ticker with
  | None => (Raise UpstreamError, db0)
  | Some (to_save, events) =>
      match save_daily_metrics to_save engine db0 with
      | (Raise e, db1) => (Raise e, db1)
      | (Ok _, db1) =>
          match save_signal_events ticker events engine db1 with
          | (Raise e, db2) => (Raise e, db2)
          | (Ok _, db2) =>
              if export_json output ticker events then (Ok tt, db2)
              else (Raise UpstreamError, db2)
          end
      end
  end.

End Run.

End Main.

(** ** Reference notions used in the statements *)

Module Reference.
Import Python Store.

(** INSERT OR REPLACE on the contents of a relation, rowids left out,
    and a batch of them in turn. *)
Definition upsert {A} (conflict : A → A → bool) (row : A) (l : list A)
    : list A :=
  filter (λ r, ¬ conflict row r) l ++ [row].

Definition upsert_all {A} (conflict : A → A → bool) (batch l : list A)
    : list A :=
  foldl (λ l row, upsert conflict row l) l batch.

(** Which relations exist. *)
Definition created {A} (t : option A) : bool :=
  match t with Some _ => true | None => false end.

Definition shape (db : Database) : bool * bool * bool :=
  (created (tickers db), created (daily_metrics db),
   created (signal_events db)).

Definition work (c : Connection) : Database :=
  default (durable c) (pending c).

Section WithRuntime.
Context `{Runtime}.

(** The statements of a batch run one after the other on a database
    state, the [n]-th counted from [n0], stopping at the first that
    fails. *)
Fixpoint run_batch (engine : Engine) (n0 : nat) (sts : list statement)
    (db : Database) : result Database :=
  match sts with
  | [] => Ok db
  | st :: rest =>
      if disk_fault engine n0 then Raise DiskIOError
      else match run_statement st db with
           | Ok db' => run_batch engine (S n0) rest db'
           | Raise e => Raise e
           end
  end.

(** The [n]-th statement of a call fails: the storage fails under it,
    or the statement itself is refused. *)
Definition statement_fails (engine : Engine) (db : Database)
    (n : nat) (st : statement) : bool :=
  disk_fault engine n
  || match run_statement st db with Ok _ => false | Raise _ => true end.

Definition some_fails (engine : Engine) (db : Database)
    (sts : list statement) : Prop :=
  ∃ n st, sts !! n = Some st ∧ statement_fails engine db n st.

(** Every statement of a batch applied in turn. *)
Definition apply_all (sts : list statement) (db : Database) : Database :=
  foldl (λ d st, match run_statement st d with Ok d' => d' | Raise _ => d end)
    db sts.

(** The rows of a relation that collide with [row]. *)
Definition rows_for {A} (conflict : A → A → bool) (row : A)
    (t : option (table A)) : list A :=
  filter (λ r, conflict row r) (default [] (contents t)).

(** A batch of metrics the store accepts, with the rows it holds:
    the dates convert, every value binds, and every record carries
    its key, a ticker and a date that are not NULL. *)
Definition valid_batch (df : DataFrame) (batch : list DailyMetric) : Prop :=
  ∃ records,
    metric_records df = Some records
    ∧ Forall2 (λ r row, daily_metrics_row r = Ok row) records batch
    ∧ Forall (λ row, present (dm_ticker row) ∧ present (dm_date row)) batch.

Definition daily_statements (records : list pydict) : list statement :=
  InsertOrReplaceDailyMetrics <$> records.

Definition event_statements (ticker : string) (events : list pydict)
    : list statement :=
  (λ ev, InsertOrReplaceSignalEvents (event_params ticker ev)) <$> events.

(** What a transaction body must do for the batch [sts]: leave its
    effect pending or committed when it runs through, and nothing
    durable when it raises. *)
Definition carries_out (body : sql unit) (sts : list statement)
    engine db : Prop :=
  let '(r, c') := body (begin (connect engine db)) in
  match run_batch engine 0 sts db with
  | Ok w => r = Ok tt ∧ work c' = w
  | Raise e => r = Raise e ∧ durable c' = db
  end.

End WithRuntime.

(** [df] without the columns that are not in [allow]. *)
Definition drop_columns_outside (allow : list string) (df : DataFrame)
    : DataFrame :=
  select (filter (λ c, c ∈ allow) (columns df)) df.

End Reference.

(** ** Sample data *)

Module Sample.
Import Python Store Processor Main.

(** The date a cell is read as by the sample runtime: only a date is
    read as a date. *)
Definition sample_date (v : pyval) : option pyval :=
  match v with PDate d => Some (PDate d) | _ => None end.

(** A runtime small enough to compute with: a column converts when each
    of its cells is a date, [str] and [isoformat] print numbers in
    decimal. *)
Definition sample_runtime : Runtime :=
  {| to_dates := mapM sample_date;
     to_dates_length col dates Hdates :=
       eq_sym (length_mapM sample_date col dates Hdates);
     to_dates_nil := eq_refl;
     py_str v :=
       match v with
       | PNone => "None"
       | PNaN => "nan"
       | PInt z => pretty z
       | PFloat q => pretty (Qnum q) +:+ "/" +:+ pretty (Z.pos (Qden q))
       | PStr s => s
       | PDate d => pretty d
       | PDatetime stamp => pretty stamp
       | PBytes b => b
       | PObject tag => tag
       end;
     isoformat d := pretty d;
     isoformat_datetime stamp := pretty stamp |}.

Definition sound_engine : Engine := mkEngine (λ _, false).

(** An engine whose storage fails under the second statement. *)
Definition failing_engine : Engine :=
  mkEngine (λ n, bool_decide (n = 1)).

Definition fresh : Database := init_db empty_database.

(** One row of a frame for RELIANCE.NS, with a column, [note], that
    the model does not have. *)
Definition day (d : Z) (close : Q) : pydict :=
  {[ "ticker" := PStr "RELIANCE.NS"; "date" := PDate d;
     "close" := PFloat close; "note" := PStr "adjusted" ]}.

Definition frame (rows : list pydict) : DataFrame :=
  {| columns := ["ticker"; "date"; "close"; "note"]; rows := rows |}.

Definition two_days : DataFrame :=
  frame [day 738000 100; day 738001 (203 # 2)].

(** The row the store holds for [day d close]. *)
Definition stored (d : Z) (close : Q) : DailyMetric :=
  mkDailyMetric (SText "RELIANCE.NS") (SText (pretty d)) SNull SNull SNull
    (SReal close) SNull SNull SNull SNull SNull SNull.

Definition golden (d : pyval) : pydict :=
  {[ "date" := d; "signal_type" := PStr "golden_cross";
     "meta" := PObject "{}" ]}.

(** What [json.dump] writes: numbers, texts, [None] and the empty
    dict of [meta]; it raises on a date, a datetime, bytes and a
    [Timestamp]. *)
Definition json_value (v : pyval) : bool :=
  match v with
  | PNone | PNaN | PInt _ | PFloat _ | PStr _ => true
  | PObject tag => bool_decide (tag = "{}")
  | PDate _ | PDatetime _ | PBytes _ => false
  end.

(** The export of the sample runs: done when every value of every
    event can be written. *)
Definition sample_export (output ticker : string) (events : list pydict)
    : bool :=
  forallb (λ ev, bool_decide (map_Forall (λ _ v, json_value v = true) ev))
    events.

(** Collaborators for a run: the data source returns [two_days], the
    processor and the date conversions leave it as it is, one golden
    cross is detected, dated by its ISO text. *)
Definition first_run : outcome :=
  run (H := sample_runtime) DataFrame
    (λ _, Some two_days) Some (λ _, Some [PStr "2024-01-03"]) (λ _, Some [])
    Some Some sample_export
    "RELIANCE.NS" "analysis.json" true sound_engine empty_database.

Definition bar (close : option Q) (k : nat) : RawBar :=
  {| rb_date := Z.of_nat k; rb_open := None; rb_high := None;
     rb_low := None; rb_close := close; rb_volume := None;
     rb_price_to_book := None; rb_bvps := None;
     rb_enterprise_value := None |}.

(** Sixty days at a constant close of 5. *)
Definition flat_series : list RawBar := bar (Some 5%Q) <$> seq 0 60.

(** 260 days at a close of 1, the close of day 30 missing. *)
Definition gap_series : list RawBar :=
  (λ k, bar (if decide (k = 30) then None else Some 1%Q) k) <$> seq 0 260.

Definition averages (d : Z) (s l : Q) : MetricRecord :=
  {| mr_date := d; mr_open := None; mr_high := None; mr_low := None;
     mr_close := None; mr_volume := None; mr_sma50 := Some s;
     mr_sma200 := Some l; mr_price_to_book := None; mr_bvps := None;
     mr_enterprise_value := None |}.

(** [sma50 = 10, 10, 12] against [sma200 = 11, 11, 11]. *)
Definition crossing : list MetricRecord :=
  [averages 0 10 11; averages 1 10 11; averages 2 12 11].

End Sample.

(** ** Further notions: constraints, columns, event batches *)

Module Notions.
Import Python Store Reference.

(** INSERT OR REPLACE of a batch of rows, one after the other. *)
Definition replace_all {A} (conflict : A → A → bool) (batch : list A)
    (t : table A) : table A :=
  foldl (λ t row, replace_into conflict row t) t batch.

(** The unique constraint holds of the rows [l]: no two of them
    collide. *)
Fixpoint unique_rows {A} (conflict : A → A → bool) (l : list A) : Prop :=
  match l with
  | [] => True
  | x :: rest =>
      Forall (λ y, ¬ conflict x y ∧ ¬ conflict y x) rest
      ∧ unique_rows conflict rest
  end.

(** The rows of a relation, none when it does not exist. *)
Definition rows_of {A} (t : option (table A)) : list A :=
  default [] (contents t).

(** The rowids of a relation. *)
Definition rowids {A} (t : option (table A)) : list Z :=
  (default [] t).*1.

(** The value a row of [daily_metrics] has in the column named [c]. *)
Definition dm_column (c : string) (row : DailyMetric) : sqlval :=
  if decide (c = "ticker") then dm_ticker row
  else if decide (c = "date") then dm_date row
  else if decide (c = "open") then dm_open row
  else if decide (c = "high") then dm_high row
  else if decide (c = "low") then dm_low row
  else if decide (c = "close") then dm_close row
  else if decide (c = "volume") then dm_volume row
  else if decide (c = "sma50") then dm_sma50 row
  else if decide (c = "sma200") then dm_sma200 row
  else if decide (c = "price_to_book") then dm_price_to_book row
  else if decide (c = "bvps") then dm_bvps row
  else if decide (c = "enterprise_value") then dm_enterprise_value row
  else SNull.

Section WithRuntime.
Context `{Runtime}.

(** A batch of events the store accepts for [ticker], with the rows it
    holds: every parameter binds, and date and signal type are not
    NULL (the ticker is a text, never NULL). *)
Definition valid_events (ticker : string) (events : list pydict)
    (batch : list SignalEvent) : Prop :=
  Forall2 (λ ev row, signal_events_row (event_params ticker ev) = Ok row)
    events batch
  ∧ Forall (λ row, present (se_date row) ∧ present (se_signal_type row)) batch.

End WithRuntime.

End Notions.

(** ** More sample data *)

Module Cases.
Import Python Store Reference Notions Main Sample.

(** A store that already holds the close of the day before. *)
Definition seeded : Database :=
  (save_daily_metrics (H := sample_runtime) (frame [day 737999 99])
     sound_engine fresh).2.

(** One frame with the same day twice, at 100 and then at 105. *)
Definition restated_day : DataFrame :=
  frame [day 738000 100; day 738000 105].

(** A frame without a [ticker] column. *)
Definition keyless : DataFrame :=
  {| columns := ["date"; "close"];
     rows := [{[ "date" := PDate 738000; "close" := PFloat 100 ]};
              {[ "date" := PDate 738001; "close" := PFloat 101 ]}] |}.

Definition two_signals : list pydict :=
  [golden (PDate 738001); golden (PDate 738002)].

(** The row the store holds for [golden (PDate d)]. *)
Definition stored_signal (d : Z) : SignalEvent :=
  mkSignalEvent (SText "RELIANCE.NS") (SText (pretty d))
    (SText "golden_cross") (SText "{}").

(** The row the store holds for [golden (PStr date)]. *)
Definition dated_signal (date : string) : SignalEvent :=
  mkSignalEvent (SText "RELIANCE.NS") (SText date)
    (SText "golden_cross") (SText "{}").


(** The sample pipeline, with the dates the detector returns. *)
Definition sample_analysis (golden_dates : list pyval) (ticker : string)
    : option (DataFrame * list pydict) :=
  analyse DataFrame
    (λ _, Some two_days) Some (λ _, Some golden_dates) (λ _, Some [])
    Some Some ticker.

Definition sample_run (golden_dates : list pyval) (initdb : bool)
    (engine : Engine) (db : Database) : outcome :=
  run (H := sample_runtime) DataFrame
    (λ _, Some two_days) Some (λ _, Some golden_dates) (λ _, Some [])
    Some Some sample_export
    "RELIANCE.NS" "analysis.json" initdb engine db.

End Cases.

(* ================================================================== *)
(** * Part II: theorems                                                *)
(* ================================================================== *)

(** ** INSERT OR REPLACE on a relation *)

Module TableFacts.
Import Python Store Reference.

Section Upsert.
Context {A : Type} (conflict : A → A → bool).

(** The rowids play no part in what a relation holds. *)
Lemma contents_replace_into (row : A) (t : table A) :
  (replace_into conflict row t).*2 = upsert conflict row (t.*2).
Proof.
  unfold replace_into, upsert. rewrite fmap_app. f_equal.
  induction t as [|[i r] t IH]; [done|].
  rewrite fmap_cons. simpl.
  destruct (decide (¬ conflict row r)) as [Hn|Hn].
  - rewrite !filter_cons_True by done. by rewrite fmap_cons, IH.
  - rewrite !filter_cons_False by done. exact IH.
Qed.

Lemma upsert_all_snoc (batch : list A) (row : A) (l : list A) :
  upsert_all conflict (batch ++ [row]) l
  = upsert conflict row (upsert_all conflict batch l).
Proof. unfold upsert_all. by rewrite foldl_snoc. Qed.

(** A batch leaves of the old rows those that collide with none of
    its own, and puts after them what it would put in an empty
    relation. *)
Lemma upsert_all_split (batch l : list A) :
  upsert_all conflict batch l
  = filter (λ r, Forall (λ row, ¬ conflict row r) batch) l
      ++ upsert_all conflict batch [].
Proof.
  revert l. induction batch as [|row batch IH]; intros l.
  - simpl. rewrite app_nil_r. symmetry.
    induction l as [|x l IHl]; [done|].
    rewrite filter_cons_True by constructor. by f_equal.
  - change (upsert_all conflict (row :: batch) l)
      with (upsert_all conflict batch (upsert conflict row l)).
    change (upsert_all conflict (row :: batch) [])
      with (upsert_all conflict batch (upsert conflict row [])).
    rewrite (IH (upsert conflict row l)), (IH (upsert conflict row [])).
    unfold upsert. rewrite filter_nil, app_nil_l, filter_app.
    rewrite list_filter_filter, <- app_assoc. f_equal.
    apply list_filter_iff. intros x. rewrite Forall_cons. tauto.
Qed.

Lemma upsert_all_nil_elem (batch : list A) (r : A) :
  r ∈ upsert_all conflict batch [] → r ∈ batch.
Proof.
  induction batch as [|row batch IH] using rev_ind; [done|].
  rewrite upsert_all_snoc. unfold upsert.
  rewrite elem_of_app, list_elem_of_filter, list_elem_of_singleton, elem_of_app,
    list_elem_of_singleton.
  intros [[_ Hr]| ->]; auto.
Qed.

Lemma filter_none (P : A → Prop) `{!∀ x, Decision (P x)} (l : list A) :
  (∀ x, x ∈ l → ¬ P x) → filter P l = [].
Proof.
  induction l as [|x l IH]; intros Hl; [done|].
  rewrite filter_cons_False by (apply Hl; left).
  apply IH. intros y Hy. apply Hl. by right.
Qed.

(** Replaying a batch whose rows all carry their key changes
    nothing. *)
Lemma upsert_all_idempotent (batch l : list A) :
  Forall (λ row, conflict row row) batch →
  upsert_all conflict batch (upsert_all conflict batch l)
  = upsert_all conflict batch l.
Proof.
  intros Hkeys.
  rewrite (upsert_all_split batch (upsert_all conflict batch l)).
  rewrite (upsert_all_split batch l) at 1.
  rewrite filter_app, list_filter_filter.
  rewrite (upsert_all_split batch l). rewrite <- app_assoc. f_equal.
  - apply list_filter_iff. tauto.
  - rewrite filter_none; [done|].
    intros x Hx%upsert_all_nil_elem Hall.
    rewrite Forall_forall in Hall, Hkeys.
    exact (Hall x Hx (Hkeys x Hx)).
Qed.

(** The row written last is the only one left with its key. *)
Lemma upsert_rows_for (row : A) (l : list A) :
  conflict row row →
  filter (λ r, conflict row r) (upsert conflict row l) = [row].
Proof.
  intros Hk. unfold upsert. rewrite filter_app.
  rewrite filter_none.
  - by rewrite filter_cons_True, filter_nil.
  - intros x [Hx _]%list_elem_of_filter. done.
Qed.

(** Colliding is agreeing on a key that is there. *)
Hypothesis conflict_l : ∀ p q r, conflict p q → conflict p r → conflict q r.
Hypothesis conflict_r : ∀ p q r, conflict q r → conflict p r → conflict p q.

(** After a batch, each of its keys is held by exactly one row. *)
Lemma upsert_all_one_row (batch l : list A) (p : A) :
  p ∈ batch → conflict p p →
  length (filter (λ r, conflict p r) (upsert_all conflict batch l)) = 1.
Proof.
  intros Hp Hk. induction batch as [|q batch IH] using rev_ind.
  - by apply elem_of_nil in Hp.
  - rewrite upsert_all_snoc. unfold upsert at 1.
    rewrite filter_app, list_filter_filter.
    destruct (decide (conflict p q)) as [Hpq|Hpq].
    + rewrite filter_none; [by rewrite filter_cons_True|].
      intros x _ [Hpx Hqx]. apply Hqx. by eapply conflict_l.
    + rewrite filter_cons_False, filter_nil, app_nil_r by done.
      rewrite <- IH.
      * f_equal. apply list_filter_iff. intros x. split; [tauto|].
        intros Hpx. split; [done|]. intros Hqx. apply Hpq.
        by eapply conflict_r.
      * apply elem_of_app in Hp as [Hp|Hp]; [done|].
        apply list_elem_of_singleton in Hp. by subst.
Qed.

End Upsert.

Lemma u_ticker_date_l p q r :
  u_ticker_date p q → u_ticker_date p r → u_ticker_date q r.
Proof.
  unfold u_ticker_date.
  rewrite !andb_True, !bool_decide_spec.
  intros [[[H1 H2] H3] H4] [[_ H5] H6]. rewrite <- H3, <- H4. auto.
Qed.

Lemma u_ticker_date_r p q r :
  u_ticker_date q r → u_ticker_date p r → u_ticker_date p q.
Proof.
  unfold u_ticker_date.
  rewrite !andb_True, !bool_decide_spec.
  intros [[_ H3] H4] [[[H1 H2] H5] H6]. repeat split; congruence.
Qed.

Lemma u_ticker_date_refl p :
  present (dm_ticker p) ∧ present (dm_date p) → u_ticker_date p p.
Proof.
  unfold u_ticker_date. rewrite !andb_True, !bool_decide_spec. tauto.
Qed.

End TableFacts.

(** ** Connections and transactions *)

Module StoreFacts.
Import Python Store Reference TableFacts.

Section WithRuntime.
Context `{Runtime}.

Lemma run_statement_shape st db db' :
  run_statement st db = Ok db' → shape db' = shape db.
Proof.
  unfold shape.
  destruct st as [r|params]; simpl.
  - destruct (daily_metrics_row r); [|done].
    destruct (daily_metrics db) eqn:E; [|done].
    intros [= <-]. simpl. by rewrite ?E.
  - destruct (signal_events_row params); [|done].
    destruct (signal_events db) eqn:E; [|done].
    intros [= <-]. simpl. by rewrite ?E.
Qed.

(** Whether a statement is refused depends on the relations that
    exist, not on what they hold. *)
Lemma statement_fails_shape engine db db' n st :
  shape db = shape db' →
  statement_fails engine db n st = statement_fails engine db' n st.
Proof.
  unfold shape, statement_fails. intros [= Ht Hd Hs]. f_equal.
  destruct st as [r|params]; simpl.
  - destruct (daily_metrics_row r); [|done].
    by destruct (daily_metrics db), (daily_metrics db').
  - destruct (signal_events_row params); [|done].
    by destruct (signal_events db), (signal_events db').
Qed.

(** A batch either runs through, and then it is every statement
    applied in turn, or stops at a statement that fails. *)
Lemma run_batch_spec engine n0 sts db :
  match run_batch engine n0 sts db with
  | Ok w =>
      (∀ i st, sts !! i = Some st → ¬ statement_fails engine db (n0 + i) st)
      ∧ w = apply_all sts db ∧ shape w = shape db
  | Raise e =>
      ∃ i st, sts !! i = Some st ∧ statement_fails engine db (n0 + i) st
  end.
Proof.
  revert n0 db. induction sts as [|st sts IH]; intros n0 db; simpl.
  - split; [|done]. intros i st Hi. by rewrite lookup_nil in Hi.
  - destruct (disk_fault engine n0) eqn:Hf.
    { exists 0, st. split; [done|]. unfold statement_fails.
      by rewrite Nat.add_0_r, Hf. }
    destruct (run_statement st db) as [db'|e] eqn:Hst.
    2:{ exists 0, st. split; [done|]. unfold statement_fails.
        by rewrite Nat.add_0_r, Hf, Hst. }
    pose proof (run_statement_shape _ _ _ Hst) as Hsh.
    specialize (IH (S n0) db').
    destruct (run_batch engine (S n0) sts db') as [w|e].
    + destruct IH as (Hno & -> & Hw). split; [|split].
      * intros [|i] st' Hi; simpl in Hi.
        -- injection Hi as <-. unfold statement_fails.
           rewrite Nat.add_0_r, Hf, Hst. simpl. tauto.
        -- rewrite <- (statement_fails_shape engine db' db) by done.
           replace (n0 + S i) with (S n0 + i) by lia. by apply Hno.
      * unfold apply_all. simpl. by rewrite ?Hst.
      * by rewrite Hw.
    + destruct IH as (i & st' & Hi & Hfail). exists (S i), st'.
      split; [done|].
      rewrite <- (statement_fails_shape engine db' db) by done.
      by replace (n0 + S i) with (S n0 + i) by lia.
Qed.

(** The loop of statements on a connection: nothing becomes durable,
    the pending state follows [run_batch]. *)
Lemma for_each_execute {A} (mk : A → statement) (xs : list A) c :
  let '(r, c') := for_each (λ x, execute (mk x)) xs c in
  durable c' = durable c
  ∧ match run_batch (conn_engine c) (sent c) (mk <$> xs) (work c) with
    | Ok w => r = Ok tt ∧ work c' = w
    | Raise e => r = Raise e
    end.
Proof.
  revert c. induction xs as [|x xs IH]; intros c; simpl.
  - done.
  - unfold sql_bind, execute at 1. fold (work c).
    destruct (disk_fault (conn_engine c) (sent c)); [done|].
    destruct (run_statement (mk x) (work c)) as [w|e]; [|done].
    match goal with |- context [for_each _ xs ?c1] =>
      specialize (IH c1); destruct (for_each _ xs c1) as [r c'] end.
    simpl in IH. done.
Qed.

(** The transaction around such a body: all of the batch becomes
    durable, or nothing does. *)
Lemma with_begin_batch body sts engine db :
  carries_out body sts engine db →
  on_connection engine db (with_begin body)
  = match run_batch engine 0 sts db with
    | Ok w => (Ok tt, w)
    | Raise e => (Raise e, db)
    end.
Proof.
  unfold carries_out, on_connection, with_begin.
  destruct (body (begin (connect engine db))) as [r c'].
  destruct (run_batch engine 0 sts db) as [w|e].
  - intros [-> Hw]. simpl. by rewrite <- Hw.
  - intros [-> Hd]. simpl. by rewrite Hd.
Qed.

Lemma loop_carries_out {A} (mk : A → statement) (xs : list A) engine db :
  carries_out (for_each (λ x, execute (mk x)) xs) (mk <$> xs) engine db.
Proof.
  unfold carries_out.
  pose proof (for_each_execute mk xs (begin (connect engine db))) as Hloop.
  destruct (for_each _ xs (begin (connect engine db))) as [r c'].
  destruct Hloop as [Hd Hloop]. simpl in Hd, Hloop.
  change (work (begin (connect engine db))) with db in Hloop.
  by destruct (run_batch engine 0 (mk <$> xs) db).
Qed.

Lemma loop_commit_carries_out {A} (mk : A → statement) (xs : list A)
    engine db :
  carries_out (for_each (λ x, execute (mk x)) xs ;; trans_commit)
    (mk <$> xs) engine db.
Proof.
  pose proof (loop_carries_out mk xs engine db) as Hloop.
  unfold carries_out, sql_bind in *.
  destruct (for_each _ xs (begin (connect engine db))) as [r c'].
  destruct (run_batch engine 0 (mk <$> xs) db) as [w|e].
  - destruct Hloop as [-> Hw]. by simpl.
  - by destruct Hloop as [-> Hd].
Qed.

(** [save_daily_metrics], all in one: the date conversion, then the
    batch as one transaction. *)
Lemma save_daily_metrics_unfold df engine db :
  save_daily_metrics df engine db
  = match metric_records df with
    | None => (Raise DateParseError, db)
    | Some records =>
        match run_batch engine 0 (daily_statements records) db with
        | Ok w => (Ok tt, w)
        | Raise e => (Raise e, db)
        end
    end.
Proof.
  unfold save_daily_metrics.
  destruct (metric_records df) as [[|r records]|]; [done| |done].
  apply with_begin_batch, loop_carries_out.
Qed.

Lemma save_signal_events_unfold ticker events engine db :
  save_signal_events ticker events engine db
  = match run_batch engine 0 (event_statements ticker events) db with
    | Ok w => (Ok tt, w)
    | Raise e => (Raise e, db)
    end.
Proof.
  unfold save_signal_events.
  apply (with_begin_batch _ (event_statements ticker events)).
  apply (loop_commit_carries_out
           (λ ev, InsertOrReplaceSignalEvents (event_params ticker ev))).
Qed.

(** Statements on [daily_metrics] leave the other two relations as
    they are, and likewise for [signal_events]. *)
Lemma run_batch_daily_frame engine n0 records db w :
  run_batch engine n0 (daily_statements records) db = Ok w →
  tickers w = tickers db ∧ signal_events w = signal_events db.
Proof.
  revert n0 db. induction records as [|r records IH]; intros n0 db; simpl.
  - by intros [= <-].
  - destruct (disk_fault engine n0); [done|].
    destruct (daily_metrics_row r); [|done].
    destruct (daily_metrics db); [|done].
    intros [Ht Hs]%IH. done.
Qed.

Lemma run_batch_events_frame engine n0 ticker events db w :
  run_batch engine n0 (event_statements ticker events) db = Ok w →
  tickers w = tickers db ∧ daily_metrics w = daily_metrics db.
Proof.
  revert n0 db. induction events as [|ev events IH]; intros n0 db; simpl.
  - by intros [= <-].
  - destruct (disk_fault engine n0); [done|].
    destruct (signal_events_row _); [|done].
    destruct (signal_events db); [|done].
    intros [Ht Hs]%IH. done.
Qed.

Lemma save_daily_metrics_frame df engine db :
  tickers (save_daily_metrics df engine db).2 = tickers db
  ∧ signal_events (save_daily_metrics df engine db).2 = signal_events db.
Proof.
  rewrite save_daily_metrics_unfold.
  destruct (metric_records df) as [records|]; [|done].
  destruct (run_batch _ _ _ _) as [w|e] eqn:Hrun; [|done].
  by apply run_batch_daily_frame in Hrun.
Qed.

Lemma save_signal_events_frame ticker events engine db :
  tickers (save_signal_events ticker events engine db).2 = tickers db
  ∧ daily_metrics (save_signal_events ticker events engine db).2
    = daily_metrics db.
Proof.
  rewrite save_signal_events_unfold.
  destruct (run_batch _ _ _ _) as [w|e] eqn:Hrun; [|done].
  by apply run_batch_events_frame in Hrun.
Qed.

(** A batch whose records name columns of the model only is never
    refused for a column. *)
Lemma run_batch_columns engine n0 records db :
  Forall (map_Forall (λ c _, c ∈ daily_metrics_columns)) records →
  run_batch engine n0 (daily_statements records) db ≠ Raise NoSuchColumn.
Proof.
  intros Hcols. revert n0 db.
  induction Hcols as [|r records Hr Hcols IH]; intros n0 db; simpl; [done|].
  destruct (disk_fault engine n0); [done|].
  unfold daily_metrics_row.
  destruct (decide (r = ∅)); [done|].
  rewrite decide_True by done.
  destruct (daily_metric_of r); [|done].
  destruct (daily_metrics db); [|done].
  apply IH.
Qed.

(** The parameters of an event's statement. *)
Lemma event_params_lookup ticker ev :
  event_params ticker ev !! "ticker" = Some (PStr ticker)
  ∧ event_params ticker ev !! "date" = Some (dict_get ev "date")
  ∧ event_params ticker ev !! "signal_type" = Some (dict_get ev "signal_type")
  ∧ event_params ticker ev !! "meta" = Some (PStr (py_str (dict_get ev "meta"))).
Proof. repeat split. Qed.

(** A call is all or nothing. *)
Lemma all_or_nothing engine sts db :
  (some_fails engine db sts →
     ∃ e, run_batch engine 0 sts db = Raise e)
  ∧ (¬ some_fails engine db sts →
     run_batch engine 0 sts db = Ok (apply_all sts db)).
Proof.
  pose proof (run_batch_spec engine 0 sts db) as Hspec.
  destruct (run_batch engine 0 sts db) as [w|e]; split.
  - intros (i & st & Hi & Hfail). destruct Hspec as [Hno _].
    by destruct (Hno i st Hi).
  - intros _. by destruct Hspec as (_ & -> & _).
  - eauto.
  - intros Hno. by destruct Hno.
Qed.

(** A batch of rows that bind, run against an existing relation:
    no statement is refused, and the relation ends as the rows
    upserted in turn. *)
Lemma run_batch_daily engine n0 records batch db t :
  reliable engine →
  Forall2 (λ r row, daily_metrics_row r = Ok row) records batch →
  daily_metrics db = Some t →
  ∃ t',
    run_batch engine n0 (daily_statements records) db
    = Ok {| tickers := tickers db; daily_metrics := Some t';
            signal_events := signal_events db |}
    ∧ t'.*2 = upsert_all u_ticker_date batch (t.*2).
Proof.
  intros Hrel Hrows. revert n0 db t.
  induction Hrows as [|r row records batch Hr Hrows IH]; intros n0 db t Ht.
  - exists t. split; [|done]. simpl. rewrite <- Ht. by destruct db.
  - simpl. rewrite Hrel, Hr, Ht.
    edestruct (IH (S n0)) as (t' & -> & Ht'); [done|].
    exists t'. split; [done|].
    by rewrite Ht', contents_replace_into.
Qed.

Lemma save_daily_metrics_valid df batch engine db t :
  valid_batch df batch → reliable engine → daily_metrics db = Some t →
  ∃ t',
    save_daily_metrics df engine db
    = (Ok tt, {| tickers := tickers db; daily_metrics := Some t';
                 signal_events := signal_events db |})
    ∧ t'.*2 = upsert_all u_ticker_date batch (t.*2).
Proof.
  intros (records & Hrec & Hrows & _) Hrel Ht.
  rewrite save_daily_metrics_unfold, Hrec.
  destruct (run_batch_daily engine 0 records batch db t Hrel Hrows Ht)
    as (t' & -> & Ht').
  eauto.
Qed.

End WithRuntime.
End StoreFacts.

(** ** Frames and the columns that reach the store *)

Module FrameFacts.
Import Python Store Reference.

Lemma filter_ext_elem {A} (P Q : A → Prop) `{!∀ x, Decision (P x)}
    `{!∀ x, Decision (Q x)} (l : list A) :
  (∀ x, x ∈ l → P x ↔ Q x) → filter P l = filter Q l.
Proof.
  induction l as [|x l IH]; intros Hl; [done|].
  assert (filter P l = filter Q l) as IH'.
  { apply IH. intros y Hy. apply Hl. by right. }
  destruct (decide (P x)) as [Hx|Hx].
  - rewrite !filter_cons_True; [by f_equal| |done]. apply Hl; [left|done].
  - rewrite !filter_cons_False; [done| |done]. rewrite <- Hl; [done|left].
Qed.

(** Cutting a row down twice is cutting it down to the smaller set of
    columns. *)
Lemma cut_cut (inner outer : list string) (row : pydict) :
  (∀ c, c ∈ inner → c ∈ outer) →
  filter (λ kv : string * pyval, kv.1 ∈ inner)
    (filter (λ kv : string * pyval, kv.1 ∈ outer) row)
  = filter (λ kv : string * pyval, kv.1 ∈ inner) row.
Proof.
  intros Hsub. apply map_eq. intros i. apply option_eq. intros x.
  rewrite !map_lookup_filter_Some. simpl. intuition auto.
Qed.

Lemma cut_insert_cut (inner outer : list string) (row : pydict) k v :
  (∀ c, c ∈ inner → c ∈ outer) →
  filter (λ kv : string * pyval, kv.1 ∈ inner)
    (<[k := v]> (filter (λ kv : string * pyval, kv.1 ∈ outer) row))
  = filter (λ kv : string * pyval, kv.1 ∈ inner) (<[k := v]> row).
Proof.
  intros Hsub. apply map_eq. intros i. apply option_eq. intros x.
  rewrite !map_lookup_filter_Some, !lookup_insert_Some,
    !map_lookup_filter_Some. simpl. intuition auto.
Qed.

Lemma dict_get_cut (cols : list string) (row : pydict) k :
  k ∈ cols →
  dict_get (filter (λ kv : string * pyval, kv.1 ∈ cols) row) k
  = dict_get row k.
Proof.
  intros Hk. unfold dict_get. f_equal. apply option_eq. intros x.
  rewrite map_lookup_filter_Some. simpl. intuition auto.
Qed.

Section WithRuntime.
Context `{Runtime}.

Lemma date_is_a_column : "date" ∈ daily_metrics_columns.
Proof. unfold daily_metrics_columns. set_solver. Qed.

(** The columns the store is sent: those of the model the frame
    has; columns outside the model play no part. *)
Lemma sent_columns (cols : list string) :
  filter (λ c, c ∈ filter (λ c, c ∈ daily_metrics_columns) cols)
    daily_metrics_columns
  = filter (λ c, c ∈ cols) daily_metrics_columns.
Proof.
  apply filter_ext_elem. intros c Hc. rewrite list_elem_of_filter. tauto.
Qed.

Lemma convert_dates_columns df df2 :
  convert_dates df = Some df2 → columns df2 = columns df.
Proof.
  unfold convert_dates. case_decide; [|by intros [= <-]].
  destruct (to_dates _); simpl; [by intros [= <-]|done].
Qed.

(** The cells of the [date] column are those of the frame, whatever
    other columns are cut away. *)
Lemma date_column_cut (outer : list string) (rs : list pydict) :
  "date" ∈ outer →
  (λ row, dict_get row "date")
    <$> (filter (λ kv : string * pyval, kv.1 ∈ outer) <$> rs)
  = (λ row, dict_get row "date") <$> rs.
Proof.
  intros Hd. rewrite <- list_fmap_compose. apply list_fmap_ext.
  intros i row _. simpl. by apply dict_get_cut.
Qed.

Lemma put_dates_cut (inner outer : list string) (rs : list pydict)
    (dates : list pyval) :
  (∀ c, c ∈ inner → c ∈ outer) →
  filter (λ kv : string * pyval, kv.1 ∈ inner)
    <$> zip_with (λ row d, <["date" := d]> row)
          (filter (λ kv : string * pyval, kv.1 ∈ outer) <$> rs) dates
  = filter (λ kv : string * pyval, kv.1 ∈ inner)
      <$> zip_with (λ row d, <["date" := d]> row) rs dates.
Proof.
  intros Hsub. revert dates.
  induction rs as [|row rs IH]; intros [|d dates]; try done.
  rewrite fmap_cons. cbn [zip_with]. rewrite !fmap_cons.
  f_equal; [by apply cut_insert_cut|apply IH].
Qed.

Lemma metric_records_eq df :
  metric_records df
  = let cols := filter (λ c, c ∈ columns df) daily_metrics_columns in
    let cut := filter (λ kv : string * pyval, kv.1 ∈ cols) in
    let records rows' :=
      match cols with [] => [] | _ :: _ => rows' end in
    if decide ("date" ∈ columns df) then
      (λ dates,
         records
           (cut <$> zip_with (λ row d, <["date" := d]> row) (rows df) dates))
        <$> to_dates (date_column df)
    else Some (records (cut <$> rows df)).
Proof.
  unfold metric_records, convert_dates. simpl.
  case_decide; [|done].
  by destruct (to_dates (date_column df)).
Qed.

(** The records sent to the store are the same with and without the
    columns outside the model. *)
Lemma metric_records_drop df :
  metric_records (drop_columns_outside daily_metrics_columns df)
  = metric_records df.
Proof.
  rewrite !metric_records_eq. unfold drop_columns_outside. simpl.
  rewrite (sent_columns (columns df)).
  set (outer := filter (λ c, c ∈ daily_metrics_columns) (columns df)).
  set (inner := filter (λ c, c ∈ columns df) daily_metrics_columns).
  assert (∀ c, c ∈ inner → c ∈ outer) as Hsub.
  { intros c. unfold inner, outer. rewrite !list_elem_of_filter. tauto. }
  destruct (decide ("date" ∈ columns df)) as [Hd|Hd].
  - assert ("date" ∈ outer) as Hd'.
    { unfold outer. rewrite list_elem_of_filter. split; [|done].
      apply date_is_a_column. }
    rewrite decide_True by done.
    unfold date_column. simpl. rewrite (date_column_cut outer) by done.
    destruct (to_dates _) as [dates|]; [|done]. simpl. f_equal.
    destruct inner as [|c cs] eqn:Hinner; [done|].
    rewrite <- Hinner in *. by apply put_dates_cut.
  - rewrite decide_False.
    2:{ unfold outer. rewrite list_elem_of_filter. tauto. }
    f_equal. destruct inner as [|c cs] eqn:Hinner; [done|].
    rewrite <- Hinner in *. rewrite <- list_fmap_compose.
    apply list_fmap_ext. intros i row _. simpl. by apply cut_cut.
Qed.

(** Every record sent to the store names columns of the model only. *)
Lemma metric_records_columns df records :
  metric_records df = Some records →
  Forall (map_Forall (λ c _, c ∈ daily_metrics_columns)) records.
Proof.
  unfold metric_records. destruct (convert_dates df) as [df2|]; [|done].
  simpl. intros [= <-]. unfold to_dict_records, select. simpl.
  destruct (filter _ daily_metrics_columns) as [|c cs] eqn:Hcols;
    [constructor|].
  rewrite <- Hcols. apply Forall_fmap, Forall_forall. intros row _.
  simpl. apply map_Forall_lookup. intros i x.
  rewrite map_lookup_filter_Some. simpl.
  rewrite list_elem_of_filter. tauto.
Qed.

End WithRuntime.
End FrameFacts.

(** ** The store: the claims about [database.py] *)

Module StoreSpec.
Import Python Store Reference TableFacts StoreFacts FrameFacts.

Section WithRuntime.
Context `{Runtime}.

(** C3, as the code has it. Each call to [save_daily_metrics] or
    [save_signal_events] runs its batch as one transaction. When the
    dates of the frame do not convert, or a statement of the batch fails
    (a value the driver cannot bind, a relation that is missing, a
    failure of the storage), the call raises and the database is what it
    was before the call; when none fails, the call returns and the
    database is the one with every record of the batch applied in turn.
    A record that lacks a key field is not among the failures: an event
    without [date] makes a statement like any other, with NULL for the
    date. *)
Theorem batch_is_atomic (df : DataFrame) (ticker : string)
    (events : list pydict) (engine : Engine) (db : Database) :
  match metric_records df with
  | None => save_daily_metrics df engine db = (Raise DateParseError, db)
  | Some records =>
      (some_fails engine db (daily_statements records) →
         ∃ e, save_daily_metrics df engine db = (Raise e, db))
      ∧ (¬ some_fails engine db (daily_statements records) →
         save_daily_metrics df engine db
         = (Ok tt, apply_all (daily_statements records) db))
  end
  ∧ (some_fails engine db (event_statements ticker events) →
       ∃ e, save_signal_events ticker events engine db = (Raise e, db))
  ∧ (¬ some_fails engine db (event_statements ticker events) →
       save_signal_events ticker events engine db
       = (Ok tt, apply_all (event_statements ticker events) db))
  ∧ (∀ ev signal_type,
       ev !! "date" = None →
       bind (dict_get ev "signal_type") = Some signal_type →
       signal_events_row (event_params ticker ev)
       = Ok (mkSignalEvent (SText ticker) SNull signal_type
               (SText (py_str (dict_get ev "meta"))))).
Proof.
  rewrite save_daily_metrics_unfold, save_signal_events_unfold.
  split; [destruct (metric_records df) as [records|]; [|done]|split; [|split]].
  4:{ intros ev signal_type Hdate Htype.
      unfold signal_events_row, placeholder.
      destruct (event_params_lookup ticker ev) as (-> & -> & -> & ->).
      assert (dict_get ev "date" = PNone) as -> by (unfold dict_get; by rewrite Hdate).
      remember (dict_get ev "signal_type") as ttype.
      remember (dict_get ev "meta") as meta.
      simpl. by rewrite Htype. }
  - destruct (all_or_nothing engine (daily_statements records) db)
      as [Hfail Hok].
    split.
    + intros [e ->]%Hfail. eauto.
    + by intros ->%Hok.
  - destruct (all_or_nothing engine (event_statements ticker events) db)
      as [Hfail _].
    intros [e ->]%Hfail. eauto.
  - destruct (all_or_nothing engine (event_statements ticker events) db)
      as [_ Hok].
    by intros ->%Hok.
Qed.

(** C1. Saving a valid batch of metrics twice in a row leaves the
    store in the same observable state as saving it once: on a
    reliable engine and with the relation in place, both calls
    return, what the three relations hold is the same after the
    second call as after the first, and each key of the batch is held
    by exactly one row. *)
Theorem save_daily_metrics_idempotent (df : DataFrame)
    (batch : list DailyMetric) (engine : Engine) (db : Database) :
  valid_batch df batch →
  reliable engine →
  is_Some (daily_metrics db) →
  ∃ db1 db2,
    save_daily_metrics df engine db = (Ok tt, db1)
    ∧ save_daily_metrics df engine db1 = (Ok tt, db2)
    ∧ observable db2 = observable db1
    ∧ Forall (λ row,
        length (rows_for u_ticker_date row (daily_metrics db2)) = 1) batch.
Proof.
  intros Hvalid Hrel [t Ht].
  destruct (save_daily_metrics_valid df batch engine db t Hvalid Hrel Ht)
    as (t1 & Hcall1 & Ht1).
  set (db1 := {| tickers := tickers db; daily_metrics := Some t1;
                 signal_events := signal_events db |}) in *.
  destruct (save_daily_metrics_valid df batch engine db1 t1 Hvalid Hrel eq_refl)
    as (t2 & Hcall2 & Ht2).
  destruct Hvalid as (_ & _ & _ & Hkeys).
  assert (Forall (λ row, u_ticker_date row row) batch) as Hrefl.
  { eapply Forall_impl; [exact Hkeys|]. intros row. apply u_ticker_date_refl. }
  eexists _, _. split; [exact Hcall1|]. split; [exact Hcall2|]. split.
  - unfold observable, contents. simpl. do 2 f_equal.
    rewrite Ht2, Ht1. by rewrite upsert_all_idempotent.
  - rewrite Forall_forall in Hrefl |- *. intros row Hrow.
    unfold rows_for, contents. simpl. rewrite Ht2.
    apply (upsert_all_one_row _ u_ticker_date_l u_ticker_date_r); auto.
Qed.

(** C2. Upserting a row keyed (ticker, date) and then a row with the
    same key and another payload leaves exactly one row for that key,
    and it holds the second payload: the first is replaced, neither
    merged nor kept, and the second call is not refused. *)
Theorem upsert_replaces (df1 df2 : DataFrame) (p1 p2 : DailyMetric)
    (engine : Engine) (db : Database) :
  valid_batch df1 [p1] →
  valid_batch df2 [p2] →
  dm_ticker p1 = dm_ticker p2 →
  dm_date p1 = dm_date p2 →
  reliable engine →
  is_Some (daily_metrics db) →
  ∃ db1 db2,
    save_daily_metrics df1 engine db = (Ok tt, db1)
    ∧ rows_for u_ticker_date p1 (daily_metrics db1) = [p1]
    ∧ save_daily_metrics df2 engine db1 = (Ok tt, db2)
    ∧ rows_for u_ticker_date p1 (daily_metrics db2) = [p2].
Proof.
  intros Hv1 Hv2 Hticker Hdate Hrel [t Ht].
  destruct (save_daily_metrics_valid df1 [p1] engine db t Hv1 Hrel Ht)
    as (t1 & Hcall1 & Ht1).
  set (db1 := {| tickers := tickers db; daily_metrics := Some t1;
                 signal_events := signal_events db |}) in *.
  destruct (save_daily_metrics_valid df2 [p2] engine db1 t1 Hv2 Hrel eq_refl)
    as (t2 & Hcall2 & Ht2).
  destruct Hv1 as (_ & _ & _ & Hk1). destruct Hv2 as (_ & _ & _ & Hk2).
  apply Forall_singleton, u_ticker_date_refl in Hk1, Hk2.
  assert (∀ r, u_ticker_date p1 r ↔ u_ticker_date p2 r) as Hsame.
  { intros r. unfold u_ticker_date. by rewrite Hticker, Hdate. }
  eexists _, _. split; [exact Hcall1|]. split; [|split; [exact Hcall2|]].
  - unfold rows_for, contents. simpl. rewrite Ht1.
    by apply upsert_rows_for.
  - unfold rows_for, contents. simpl. rewrite Ht2.
    rewrite (list_filter_iff _ (λ r, u_ticker_date p2 r)) by done.
    by apply upsert_rows_for.
Qed.

(** C10. Each operation touches only its own relation: whatever the
    input and the outcome, [save_signal_events] leaves [daily_metrics]
    and [tickers] as they were, and [save_daily_metrics] leaves
    [signal_events] and [tickers] as they were. *)
Theorem save_touches_own_relation (df : DataFrame) (ticker : string)
    (events : list pydict) (engine : Engine) (db : Database) :
  (daily_metrics (save_signal_events ticker events engine db).2
     = daily_metrics db
   ∧ tickers (save_signal_events ticker events engine db).2 = tickers db)
  ∧ (signal_events (save_daily_metrics df engine db).2 = signal_events db
     ∧ tickers (save_daily_metrics df engine db).2 = tickers db).
Proof.
  destruct (save_signal_events_frame ticker events engine db).
  destruct (save_daily_metrics_frame df engine db).
  done.
Qed.

(** C8. [save_daily_metrics] writes the columns of the fixed list
    only, and fields of the input outside the list are dropped, never
    rejected. Take an input, whatever columns it has outside the list,
    whose columns of the list make a valid batch: on a reliable engine
    and with the relation in place the call returns, the relation then
    holds the rows it held with the rows of that batch, which have the
    columns of the list and no other, upserted in turn, and each key of
    the batch is held by exactly one row. For every input whatsoever
    the records sent, the outcome of the call and the database it
    leaves are those of the same input without the extra fields, and
    the store never refuses the call for a column it does not have. *)
Theorem extra_fields_are_dropped (df : DataFrame) (engine : Engine)
    (db : Database) :
  (∀ batch,
     valid_batch (drop_columns_outside daily_metrics_columns df) batch →
     reliable engine →
     is_Some (daily_metrics db) →
     ∃ db',
       save_daily_metrics df engine db = (Ok tt, db')
       ∧ contents (daily_metrics db')
         = upsert_all u_ticker_date batch <$> contents (daily_metrics db)
       ∧ Forall (λ row,
           length (rows_for u_ticker_date row (daily_metrics db')) = 1) batch)
  ∧ metric_records df
    = metric_records (drop_columns_outside daily_metrics_columns df)
  ∧ save_daily_metrics df engine db
    = save_daily_metrics (drop_columns_outside daily_metrics_columns df)
        engine db
  ∧ (save_daily_metrics df engine db).1 ≠ Raise NoSuchColumn.
Proof.
  split; [|split; [by rewrite metric_records_drop|split]].
  - intros batch Hvalid Hrel [t Ht].
    assert (valid_batch df batch) as Hvalid'.
    { destruct Hvalid as (records & Hrec & Hrows).
      exists records. by rewrite <- metric_records_drop. }
    destruct (save_daily_metrics_valid df batch engine db t Hvalid' Hrel Ht)
      as (t' & Hcall & Ht').
    destruct Hvalid as (_ & _ & _ & Hkeys).
    eexists. split; [exact Hcall|].
    unfold rows_for, contents. simpl. rewrite Ht, Ht'. split; [done|].
    rewrite Forall_forall in Hkeys |- *. intros row Hrow.
    pose proof (u_ticker_date_refl row (Hkeys row Hrow)) as Hrefl.
    apply (upsert_all_one_row _ u_ticker_date_l u_ticker_date_r); auto.
  - by rewrite !save_daily_metrics_unfold, metric_records_drop.
  - rewrite save_daily_metrics_unfold.
    destruct (metric_records df) as [records|] eqn:Hrec; [|done].
    pose proof (run_batch_columns engine 0 records db
                  (metric_records_columns df records Hrec)) as Hcol.
    destruct (run_batch _ _ _ _) as [w|e]; [done|].
    simpl. congruence.
Qed.

End WithRuntime.
End StoreSpec.

(** ** The pipeline: the claim about [main.py] *)

Module MainSpec.
Import Python Store Reference StoreFacts Main.

Section Run.
Context `{Runtime}.
Variable Raw : Type.
Variable fetch_stock_data : string → option Raw.
Variable process_data : Raw → option DataFrame.
Variable detect_golden_crossover : DataFrame → option (list pyval).
Variable detect_death_cross : DataFrame → option (list pyval).
Variable assign_naive_dates : DataFrame → option DataFrame.
Variable assign_datetimes : DataFrame → option DataFrame.
Variable export_json : string → string → list pydict → bool.

(** C9, as the code has it. No run of the pipeline creates or
    updates a Ticker record: [init_db] creates the [tickers] relation,
    empty, when it does not exist, and whatever the collaborators
    return and however the run ends, the rows of [tickers] after the
    run are the rows before it. *)
Theorem run_never_writes_tickers (ticker output : string) (initdb : bool)
    (engine : Engine) (db : Database) :
  tickers
    (run Raw fetch_stock_data process_data detect_golden_crossover
       detect_death_cross assign_naive_dates assign_datetimes export_json
       ticker output initdb engine db).2
  = if initdb then Some (default [] (tickers db)) else tickers db.
Proof.
  unfold run.
  set (db0 := if initdb then init_db db else db).
  assert (tickers db0 = if initdb then Some (default [] (tickers db))
                        else tickers db) as <-.
  { unfold db0. by destruct initdb. }
  destruct (analyse _ _ _ _ _ _ _ _) as [[to_save events]|]; [|done].
  pose proof (save_daily_metrics_frame to_save engine db0) as [Ht1 _].
  destruct (save_daily_metrics to_save engine db0) as [[[]|e] db1];
    simpl in Ht1; [|done].
  pose proof (save_signal_events_frame ticker events engine db1) as [Ht2 _].
  destruct (save_signal_events ticker events engine db1) as [[[]|e] db2];
    simpl in Ht2; [|simpl; congruence].
  destruct (export_json output ticker events); simpl; congruence.
Qed.

End Run.
End MainSpec.

(** ** The processor: the moving averages *)

Module ProcessorSpec.
Import Processor.

Lemma rolling_lookup (w : nat) (xs seen : list (option Q)) (i : nat) :
  i < length xs →
  rolling w seen xs !! i
  = Some (window_mean w
            (drop (length seen + (i + 1) - w) (seen ++ take (i + 1) xs))).
Proof.
  revert seen i. induction xs as [|x xs IH]; intros seen i Hi; simpl in Hi.
  - lia.
  - destruct i as [|i]; simpl.
    + rewrite take_0, length_app. simpl. done.
    + rewrite IH by lia. rewrite length_app. simpl.
      rewrite <- app_assoc. simpl. do 3 f_equal. lia.
Qed.

(** The window of position [i]: the last [w] values up to [i]. *)
Lemma sma_lookup (w : nat) (xs : list (option Q)) (i : nat) :
  i < length xs →
  sma w xs !! i
  = Some (window_mean w (drop (i + 1 - w) (take (i + 1) xs))).
Proof. intros Hi. unfold sma. by rewrite rolling_lookup. Qed.

Lemma sma_length (w : nat) (xs : list (option Q)) :
  length (sma w xs) = length xs.
Proof.
  unfold sma. generalize (@nil (option Q)).
  induction xs as [|x xs IH]; intros seen; simpl; [done|]. by rewrite IH.
Qed.

(** The average of a window is undefined exactly when the window is
    short or has a gap. *)
Lemma window_mean_None (w : nat) (win : list (option Q)) :
  window_mean w win = None ↔ length win < w ∨ None ∈ win.
Proof.
  unfold window_mean. case_decide as Hlen.
  - tauto.
  - rewrite fmap_None, mapM_None, Exists_exists. unfold id.
    split.
    + intros (x & Hx & ->). by right.
    + intros [?|Hin]; [lia|]. eauto.
Qed.

Lemma window_mean_full (w : nat) (vs : list Q) :
  length vs = w → window_mean w (Some <$> vs) = Some (mean vs).
Proof.
  intros Hlen. unfold window_mean.
  rewrite decide_False by (rewrite length_fmap; lia).
  by rewrite mapM_fmap_Some.
Qed.

(** With every close there, the average is defined from position
    [w - 1] on, over the values [i - (w - 1)] to [i]. *)
Lemma sma_all_present (w : nat) (closes : list Q) (i : nat) :
  0 < w → i < length closes →
  sma w (Some <$> closes) !! i
  = Some (if decide (w - 1 ≤ i)
          then Some (mean (take w (drop (i - (w - 1)) closes)))
          else None).
Proof.
  intros Hw Hi. rewrite sma_lookup by (by rewrite length_fmap).
  f_equal. case_decide as Hfull.
  - rewrite <- fmap_take, <- fmap_drop.
    replace (drop (i + 1 - w) (take (i + 1) closes))
      with (take w (drop (i - (w - 1)) closes)).
    + apply window_mean_full. rewrite length_take, length_drop. lia.
    + rewrite take_drop_commute. f_equal; [lia|]. f_equal. lia.
  - apply window_mean_None. left.
    rewrite length_drop, length_take, length_fmap. lia.
Qed.

Lemma sumQ_constant (c : Q) (vs : list Q) :
  Forall (λ v, v == c) vs →
  sumQ vs == inject_Z (Z.of_nat (length vs)) * c.
Proof.
  induction 1 as [|v vs Hv Hvs IH].
  - simpl. ring.
  - change (sumQ (v :: vs)) with (v + sumQ vs)%Q.
    rewrite IH, Hv. simpl length. rewrite Nat2Z.inj_succ.
    unfold Z.succ. rewrite inject_Z_plus. ring.
Qed.

Lemma mean_constant (c : Q) (vs : list Q) :
  0 < length vs → Forall (λ v, v == c) vs → mean vs == c.
Proof.
  intros Hlen Hvs. unfold mean. rewrite (sumQ_constant c) by done.
  field. intros Hz.
  assert (inject_Z (Z.of_nat (length vs)) == inject_Z 0) as Hz' by exact Hz.
  rewrite inject_Z_injective in Hz'. lia.
Qed.

(** The two averages of the record at position [i]. *)
Lemma process_lookup (raw : list RawBar) (i : nat) (m : MetricRecord) :
  process raw !! i = Some m →
  i < length raw
  ∧ sma 50 (rb_close <$> raw) !! i = Some (mr_sma50 m)
  ∧ sma 200 (rb_close <$> raw) !! i = Some (mr_sma200 m).
Proof.
  unfold process. intros (bar & [s l] & -> & Hbar & Hzip)%lookup_zip_with_Some.
  apply lookup_zip_Some in Hzip as [Hs Hl]. split; [|done].
  by apply lookup_lt_Some in Hbar.
Qed.

Lemma process_length (raw : list RawBar) :
  length (process raw) = length raw.
Proof.
  unfold process.
  rewrite length_zip_with, length_zip, !sma_length, length_fmap. lia.
Qed.

(** C4. With every close present, [sma50] at position [i] is defined
    exactly when [i >= 49], as the arithmetic mean of the closes at
    positions [i - 49] to [i], and [sma200] exactly when [i >= 199],
    over positions [i - 199] to [i]; on a constant series of value [c]
    every defined average is [c]. *)
Theorem sma_threshold (raw : list RawBar) (closes : list Q) (i : nat)
    (m : MetricRecord) :
  rb_close <$> raw = Some <$> closes →
  process raw !! i = Some m →
  mr_sma50 m
    = (if decide (49 ≤ i)
       then Some (mean (take 50 (drop (i - 49) closes))) else None)
  ∧ mr_sma200 m
    = (if decide (199 ≤ i)
       then Some (mean (take 200 (drop (i - 199) closes))) else None)
  ∧ ∀ c, Forall (λ v, v == c) closes →
      (∀ v, mr_sma50 m = Some v → v == c)
      ∧ (∀ v, mr_sma200 m = Some v → v == c).
Proof.
  intros Hcloses (Hi & H50 & H200)%process_lookup.
  assert (i < length closes) as Hi'.
  { rewrite <- (length_fmap Some closes), <- Hcloses, length_fmap. done. }
  rewrite Hcloses in H50, H200.
  rewrite sma_all_present in H50, H200 by lia.
  injection H50 as <-. injection H200 as <-.
  change (50 - 1) with 49. change (200 - 1) with 199.
  split; [done|]. split; [done|]. intros c Hc. split; intros v.
  - case_decide; [|done]. intros [= <-]. apply mean_constant.
    + rewrite length_take, length_drop. lia.
    + by apply Forall_take, Forall_drop.
  - case_decide; [|done]. intros [= <-]. apply mean_constant.
    + rewrite length_take, length_drop. lia.
    + by apply Forall_take, Forall_drop.
Qed.

(** The average at position [i] is undefined exactly when fewer than
    [w] values have been seen or one of the last [w] is missing. *)
Lemma sma_None_iff (w : nat) (xs : list (option Q)) (i : nat) :
  0 < w → i < length xs →
  sma w xs !! i = Some None
  ↔ i + 1 < w ∨ ∃ j, i + 1 - w ≤ j ≤ i ∧ xs !! j = Some None.
Proof.
  intros Hw Hi. rewrite sma_lookup by done.
  split.
  - intros [= Hnone]. apply window_mean_None in Hnone as [Hlen|Hin].
    + left. rewrite length_drop, length_take in Hlen. lia.
    + right. apply list_elem_of_lookup in Hin as [k Hk].
      rewrite lookup_drop in Hk. apply lookup_take_Some in Hk as [Hk Hlt].
      exists (i + 1 - w + k). split; [lia|done].
  - intros Hcase. f_equal. apply window_mean_None.
    destruct Hcase as [Hshort|(j & Hj & Hnone)].
    + left. rewrite length_drop, length_take. lia.
    + right. apply list_elem_of_lookup. exists (j - (i + 1 - w)).
      rewrite lookup_drop. apply lookup_take_Some.
      split; [|lia]. by replace (i + 1 - w + (j - (i + 1 - w))) with j by lia.
Qed.

(** In a series with one gap, the gap is the only missing value. *)
Lemma single_gap_lookup (pre post : list Q) (j : nat) :
  ((Some <$> pre) ++ None :: (Some <$> post)) !! j = Some None
  ↔ j = length pre.
Proof.
  split.
  - intros Hj. destruct (decide (j < length pre)) as [Hlt|Hge].
    + rewrite lookup_app_l in Hj by (by rewrite length_fmap).
      rewrite list_lookup_fmap in Hj.
      by destruct (pre !! j).
    + rewrite lookup_app_r in Hj by (rewrite length_fmap; lia).
      rewrite length_fmap in Hj.
      destruct (j - length pre) as [|k] eqn:Hk; [lia|].
      simpl in Hj. rewrite list_lookup_fmap in Hj.
      by destruct (post !! k).
  - intros ->. rewrite lookup_app_r by (by rewrite length_fmap).
    by rewrite length_fmap, Nat.sub_diag.
Qed.

(** C5, as the code has it. A missing close anywhere in the trailing
    window ending at [i] leaves the average at [i] undefined: missing
    values are never skipped. With a single missing close, at position
    [k], [sma50] is undefined exactly at the positions below 49 (not
    enough history) and at [k] to [k + 49], and [sma200] exactly at
    the positions below 199 and at [k] to [k + 199]. *)
Theorem sma_gap_propagates (raw : list RawBar) (i : nat) (m : MetricRecord) :
  process raw !! i = Some m →
  (∀ j, (rb_close <$> raw) !! j = Some None →
     (i - 49 ≤ j ≤ i → mr_sma50 m = None)
     ∧ (i - 199 ≤ j ≤ i → mr_sma200 m = None))
  ∧ (∀ pre post,
       rb_close <$> raw = (Some <$> pre) ++ None :: (Some <$> post) →
       (mr_sma50 m = None ↔ i < 49 ∨ length pre ≤ i < length pre + 50)
       ∧ (mr_sma200 m = None ↔ i < 199 ∨ length pre ≤ i < length pre + 200)).
Proof.
  intros (Hi & H50 & H200)%process_lookup.
  rewrite <- (length_fmap rb_close) in Hi.
  assert (∀ w s, 0 < w → sma w (rb_close <$> raw) !! i = Some s →
            s = None
            ↔ i + 1 < w
              ∨ ∃ j, i + 1 - w ≤ j ≤ i ∧ (rb_close <$> raw) !! j = Some None)
    as Hiff.
  { intros w s Hw Hs. rewrite <- (sma_None_iff w) by done.
    rewrite Hs. split; congruence. }
  pose proof (Hiff 50 _ ltac:(lia) H50) as Hiff50.
  pose proof (Hiff 200 _ ltac:(lia) H200) as Hiff200.
  split.
  - intros j Hj. split; intros Hin.
    + apply Hiff50. right. exists j. split; [lia|done].
    + apply Hiff200. right. exists j. split; [lia|done].
  - intros pre post Hgap. rewrite Hiff50, Hiff200, Hgap. split.
    + split.
      * intros [?|(j & Hj & ->%single_gap_lookup)]; lia.
      * intros [?|?]; [left; lia|]. right. exists (length pre).
        split; [lia|]. by apply single_gap_lookup.
    + split.
      * intros [?|(j & Hj & ->%single_gap_lookup)]; lia.
      * intros [?|?]; [left; lia|]. right. exists (length pre).
        split; [lia|]. by apply single_gap_lookup.
Qed.

End ProcessorSpec.

(** ** The detector: crossovers *)

Module SignalsSpec.
Import Processor Signals.

(** The two conditions cannot hold of the same pair of records. *)
Lemma golden_death_exclusive (prev cur : MetricRecord) :
  ¬ (is_golden prev cur ∧ is_death prev cur).
Proof.
  unfold is_golden, is_death.
  destruct (both_defined prev) as [[s0 l0]|]; [|tauto].
  destruct (both_defined cur) as [[s1 l1]|]; [|tauto].
  rewrite !andb_True, !negb_True, !Is_true_true, !Qle_bool_iff.
  intros [[_ Hup] [_ Hdown]].
  apply Hdown, Qlt_le_weak, Qnot_le_lt, Hup.
Qed.

(** An event carries the date of a record after the first. *)
Lemma transitions_date test (prev : MetricRecord) rest (d : Date) :
  d ∈ transitions test prev rest → ∃ r, r ∈ rest ∧ mr_date r = d.
Proof.
  revert prev. induction rest as [|cur rest IH]; intros prev; simpl.
  - by intros ?%elem_of_nil.
  - rewrite elem_of_app. intros [Hhead|Htail].
    + destruct (test prev cur); [|by apply elem_of_nil in Hhead].
      apply list_elem_of_singleton in Hhead as ->.
      exists cur. split; [left|done].
    + destruct (IH _ Htail) as (r & Hr & <-). exists r. split; [by right|done].
Qed.

Lemma transitions_exclusive (prev : MetricRecord) rest (d : Date) :
  ascending rest →
  ¬ (d ∈ transitions is_golden prev rest ∧ d ∈ transitions is_death prev rest).
Proof.
  revert prev. induction rest as [|cur rest IH]; intros prev Hasc; simpl.
  - by intros [?%elem_of_nil _].
  - destruct Hasc as [Hlater Hasc]. rewrite !elem_of_app.
    assert (∀ test, d ∈ transitions test cur rest → (mr_date cur < d)%Z)
      as Hafter.
    { intros test (r & Hr & <-)%transitions_date.
      rewrite Forall_forall in Hlater. by apply Hlater. }
    assert (∀ test : MetricRecord → MetricRecord → bool,
              d ∈ (if test prev cur then [mr_date cur] else []) →
              test prev cur ∧ d = mr_date cur) as Hhere.
    { intros test Hd. destruct (test prev cur); [|by apply elem_of_nil in Hd].
      by apply list_elem_of_singleton in Hd. }
    intros [[Hg|Hg] [Hd|Hd]].
    + apply (golden_death_exclusive prev cur).
      split; [by apply (Hhere is_golden)|by apply (Hhere is_death)].
    + apply Hhere in Hg as [_ ->]. apply Hafter in Hd. lia.
    + apply Hhere in Hd as [_ ->]. apply Hafter in Hg. lia.
    + by apply (IH cur Hasc).
Qed.

(** C6. In a metric series (ascending dates) no date is reported by
    both [detect_golden_crossover] and [detect_death_cross]: the golden
    and the death condition never hold at the same position. *)
Theorem crossover_exclusive (series : list MetricRecord) :
  ascending series →
  (∀ i prev cur, series !! i = Some prev → series !! S i = Some cur →
     ¬ (is_golden prev cur ∧ is_death prev cur))
  ∧ (∀ d, ¬ (d ∈ detect_golden_crossover series
             ∧ d ∈ detect_death_cross series)).
Proof.
  intros Hasc. split.
  - intros i prev cur _ _. apply golden_death_exclusive.
  - intros d. unfold detect_golden_crossover, detect_death_cross, detect.
    destruct series as [|first rest].
    + by intros [?%elem_of_nil _].
    + apply transitions_exclusive. by destruct Hasc.
Qed.

End SignalsSpec.

(** ** Empty input *)

Module EmptyInput.
Import Python Store Reference Processor Signals.

Section WithRuntime.
Context `{Runtime}.

(** C7. An empty input never errors: on an empty raw series the
    processor and both detector operations return empty sequences,
    and after [init_db] a call of [save_daily_metrics] or
    [save_signal_events] with an empty batch returns without raising
    and leaves the store as it was. *)
Theorem empty_input_is_noop (cols : list string) (ticker : string)
    (engine : Engine) (db : Database) :
  process [] = []
  ∧ detect_golden_crossover (process []) = []
  ∧ detect_death_cross (process []) = []
  ∧ save_daily_metrics {| columns := cols; rows := [] |} engine (init_db db)
    = (Ok tt, init_db db)
  ∧ save_signal_events ticker [] engine (init_db db)
    = (Ok tt, init_db db).
Proof.
  do 3 (split; [reflexivity|]). split.
  - unfold save_daily_metrics, metric_records, convert_dates.
    unfold date_column. simpl. case_decide; simpl.
    + rewrite to_dates_nil. simpl.
      unfold to_dict_records. simpl. by destruct (filter _ _).
    + unfold to_dict_records. simpl. by destruct (filter _ _).
  - unfold save_signal_events, on_connection, with_begin, sql_bind. simpl.
    unfold commit. simpl. done.
Qed.

End WithRuntime.
End EmptyInput.

(** ** The theorems at work on the sample data *)

Module Checks.
Import Python Store Reference Processor Signals Main Sample.
Import StoreSpec MainSpec ProcessorSpec SignalsSpec.

Lemma sound_engine_reliable : reliable sound_engine.
Proof. intros n. reflexivity. Qed.

Lemma two_days_valid :
  valid_batch (H := sample_runtime) two_days
    [stored 738000 100; stored 738001 (203 # 2)].
Proof.
  eexists. split; [vm_compute; reflexivity|]. split.
  - repeat constructor.
  - repeat constructor.
Defined.

Lemma one_day_valid d close :
  valid_batch (H := sample_runtime) (frame [day d close]) [stored d close].
Proof.
  eexists. split; [reflexivity|]. split.
  - repeat constructor.
  - repeat constructor.
Defined.

(** C1 on the sample: two days saved twice into a fresh store. *)
Lemma save_daily_metrics_idempotent_sample :
  valid_batch (H := sample_runtime) two_days
    [stored 738000 100; stored 738001 (203 # 2)]
  ∧ reliable sound_engine
  ∧ is_Some (daily_metrics fresh)
  ∧ ∃ db1 db2,
      save_daily_metrics (H := sample_runtime) two_days sound_engine fresh
      = (Ok tt, db1)
      ∧ save_daily_metrics (H := sample_runtime) two_days sound_engine db1
        = (Ok tt, db2)
      ∧ observable db2 = observable db1
      ∧ Forall (λ row,
          length (rows_for u_ticker_date row (daily_metrics db2)) = 1)
          [stored 738000 100; stored 738001 (203 # 2)].
Proof.
  split; [exact two_days_valid|].
  split; [exact sound_engine_reliable|].
  split; [by eexists|].
  apply (save_daily_metrics_idempotent (H := sample_runtime) two_days
           [stored 738000 100; stored 738001 (203 # 2)] sound_engine fresh).
  - exact two_days_valid.
  - exact sound_engine_reliable.
  - by eexists.
Defined.

(** C2 on the sample: the close of one day, saved at 100 and then at
    105. *)
Lemma upsert_replaces_sample :
  ∃ db1 db2,
    save_daily_metrics (H := sample_runtime) (frame [day 738000 100])
      sound_engine fresh = (Ok tt, db1)
    ∧ rows_for u_ticker_date (stored 738000 100) (daily_metrics db1)
      = [stored 738000 100]
    ∧ save_daily_metrics (H := sample_runtime) (frame [day 738000 105])
        sound_engine db1 = (Ok tt, db2)
    ∧ rows_for u_ticker_date (stored 738000 100) (daily_metrics db2)
      = [stored 738000 105].
Proof.
  apply (upsert_replaces (H := sample_runtime) (frame [day 738000 100])
           (frame [day 738000 105]) (stored 738000 100) (stored 738000 105)
           sound_engine fresh).
  - apply one_day_valid.
  - apply one_day_valid.
  - reflexivity.
  - reflexivity.
  - exact sound_engine_reliable.
  - by eexists.
Defined.

(** A batch whose second event carries a date the driver cannot
    bind: the call raises and the first event is not kept. *)
Example unbindable_event_rolls_back :
  save_signal_events (H := sample_runtime) "RELIANCE.NS"
    [golden (PDate 738001); golden (PObject "Timestamp")] sound_engine fresh
  = (Raise BindingError, fresh).
Proof. reflexivity. Qed.

(** The storage fails under the second statement: nothing of the
    batch is kept. *)
Example disk_failure_rolls_back :
  save_daily_metrics (H := sample_runtime) two_days failing_engine fresh
  = (Raise DiskIOError, fresh).
Proof. reflexivity. Qed.

(** A date that does not convert: the call raises before anything is
    sent to the store. *)
Example malformed_date_raises :
  save_daily_metrics (H := sample_runtime)
    (frame [day 738000 100; <["date" := PStr "yesterday"]> (day 738001 101)])
    sound_engine fresh
  = (Raise DateParseError, fresh).
Proof. reflexivity. Qed.

(** C3 refuted on the sample: an event without its key field [date] is
    no failure, and the batch that holds it is committed. *)
Lemma missing_key_field_is_committed :
  ¬ ∀ events : list pydict,
      Exists (λ ev, ev !! "date" = None) events →
      (save_signal_events (H := sample_runtime) "RELIANCE.NS" events
         sound_engine fresh).2 = fresh.
Proof.
  intros Hall.
  specialize (Hall [{[ "signal_type" := PStr "golden_cross" ]}]).
  assert (signal_events fresh = Some []) as Hfresh by reflexivity.
  rewrite <- Hall in Hfresh; [by vm_compute in Hfresh|].
  by left.
Qed.

(** Such an event is stored with a NULL date. *)
Example event_without_date_is_stored :
  contents
    (signal_events
       (save_signal_events (H := sample_runtime) "RELIANCE.NS"
          [{[ "signal_type" := PStr "golden_cross" ]}] sound_engine fresh).2)
  = Some [mkSignalEvent (SText "RELIANCE.NS") SNull (SText "golden_cross")
            (SText "None")].
Proof. reflexivity. Qed.

(** The extra column [note] of the sample frame is not stored, and the
    rowids move on when the batch is replayed. *)
Example two_days_stored :
  (save_daily_metrics (H := sample_runtime) two_days sound_engine fresh).2
  = {| tickers := Some [];
       daily_metrics :=
         Some [(1%Z, stored 738000 100); (2%Z, stored 738001 (203 # 2))];
       signal_events := Some [] |}.
Proof. reflexivity. Qed.

Example two_days_replayed :
  daily_metrics
    (save_daily_metrics (H := sample_runtime) two_days sound_engine
       (save_daily_metrics (H := sample_runtime) two_days sound_engine
          fresh).2).2
  = Some [(3%Z, stored 738000 100); (4%Z, stored 738001 (203 # 2))].
Proof. reflexivity. Qed.

(** A frame without a [ticker] column: every row is stored with a NULL
    ticker, NULLs never collide, and the replay doubles the rows. *)
Example replay_without_ticker_duplicates :
  let df := {| columns := ["date"; "close"];
               rows := [{[ "date" := PDate 738000; "close" := PFloat 100 ]}] |} in
  contents
    (daily_metrics
       (save_daily_metrics (H := sample_runtime) df sound_engine
          (save_daily_metrics (H := sample_runtime) df sound_engine fresh).2).2)
  = Some [mkDailyMetric SNull (SText "738000") SNull SNull SNull (SReal 100)
            SNull SNull SNull SNull SNull SNull;
          mkDailyMetric SNull (SText "738000") SNull SNull SNull (SReal 100)
            SNull SNull SNull SNull SNull SNull].
Proof. reflexivity. Qed.

(** C9 refuted on the sample: a first run for RELIANCE.NS that goes
    through leaves no record for it in [tickers]. *)
Lemma first_run_registers_no_ticker :
  first_run.1 = Ok tt
  ∧ ¬ ∃ row, row ∈ default [] (contents (tickers first_run.2))
             ∧ tk_ticker row = SText "RELIANCE.NS".
Proof.
  split; [reflexivity|].
  intros (row & Hrow & _). vm_compute in Hrow. by apply elem_of_nil in Hrow.
Qed.

(** C4 on the sample: sixty days at 5. *)
Lemma sma_threshold_sample :
  ∃ m,
    process flat_series !! 49 = Some m
    ∧ mr_sma50 m = Some (mean (take 50 (drop (49 - 49) (replicate 60 5%Q))))
    ∧ mr_sma200 m = None
    ∧ ∀ v, mr_sma50 m = Some v → v == 5.
Proof.
  assert (rb_close <$> flat_series = Some <$> replicate 60 5%Q) as Hcloses
    by reflexivity.
  destruct (process flat_series !! 49) as [m|] eqn:Hm; [|by vm_compute in Hm].
  exists m. split; [done|].
  destruct (sma_threshold flat_series (replicate 60 5%Q) 49 m Hcloses Hm)
    as (H50 & H200 & Hconst).
  split; [exact H50|]. split; [exact H200|].
  apply (Hconst 5%Q). by apply Forall_replicate.
Defined.

(** C5 refuted on the sample: with the close of day 30 missing,
    [sma50] is undefined at position 0 as well, outside 30..79. *)
Lemma sma_gap_not_only_30_79 :
  ¬ ∀ i m, process gap_series !! i = Some m →
           (mr_sma50 m = None ↔ 30 ≤ i ≤ 79).
Proof.
  intros Hall.
  destruct (process gap_series !! 0) as [m|] eqn:Hm; [|by vm_compute in Hm].
  assert (mr_sma50 m = None) as Hnone.
  { vm_compute in Hm. by injection Hm as <-. }
  apply (Hall 0 m Hm) in Hnone. lia.
Qed.

(** C5 as amended, on the sample. *)
Lemma sma_gap_propagates_sample :
  ∃ m,
    process gap_series !! 79 = Some m
    ∧ (mr_sma50 m = None ↔ 79 < 49 ∨ 30 ≤ 79 < 30 + 50)
    ∧ (mr_sma200 m = None ↔ 79 < 199 ∨ 30 ≤ 79 < 30 + 200).
Proof.
  destruct (process gap_series !! 79) as [m|] eqn:Hm; [|by vm_compute in Hm].
  exists m. split; [done|].
  destruct (sma_gap_propagates gap_series 79 m Hm) as [_ Hexact].
  apply (Hexact (replicate 30 1%Q) (replicate 229 1%Q)).
  reflexivity.
Defined.

(** C6 on the sample: the short average crosses the long one upwards
    between the second and the third record. *)
Lemma crossover_exclusive_sample :
  ascending crossing
  ∧ detect_golden_crossover crossing = [2%Z]
  ∧ detect_death_cross crossing = []
  ∧ ∀ d, ¬ (d ∈ detect_golden_crossover crossing
            ∧ d ∈ detect_death_cross crossing).
Proof.
  assert (ascending crossing) as Hasc.
  { simpl. repeat constructor. }
  split; [exact Hasc|]. split; [reflexivity|]. split; [reflexivity|].
  exact (proj2 (crossover_exclusive crossing Hasc)).
Defined.

(** The sample frame without its column [note] is the same valid
    batch. *)
Lemma two_days_without_note_valid :
  valid_batch (H := sample_runtime)
    (drop_columns_outside daily_metrics_columns two_days)
    [stored 738000 100; stored 738001 (203 # 2)].
Proof.
  eexists. split; [vm_compute; reflexivity|]. split.
  - repeat constructor.
  - repeat constructor.
Defined.

(** C8 on the sample: the two days carry a column [note] that the
    model does not have; the call returns and the store holds the two
    rows, without it. *)
Lemma extra_fields_are_dropped_sample :
  "note" ∈ columns two_days
  ∧ ("note" ∉ daily_metrics_columns)
  ∧ ∃ db',
      save_daily_metrics (H := sample_runtime) two_days sound_engine fresh
      = (Ok tt, db')
      ∧ contents (daily_metrics db')
        = Some [stored 738000 100; stored 738001 (203 # 2)]
      ∧ Forall (λ row,
          length (rows_for u_ticker_date row (daily_metrics db')) = 1)
          [stored 738000 100; stored 738001 (203 # 2)].
Proof.
  split; [apply (bool_decide_unpack _); vm_compute; exact I|].
  split; [apply (bool_decide_unpack _); vm_compute; exact I|].
  destruct (extra_fields_are_dropped (H := sample_runtime) two_days
              sound_engine fresh) as [Hsave _].
  destruct (Hsave [stored 738000 100; stored 738001 (203 # 2)]
              two_days_without_note_valid sound_engine_reliable
              (mk_is_Some _ _ eq_refl))
    as (db' & Hcall & Hrows & Hkeys).
  exists db'. split; [exact Hcall|]. split; [|exact Hkeys].
  rewrite Hrows. vm_compute. reflexivity.
Defined.

End Checks.

(** ** More on INSERT OR REPLACE: keys, constraints, rowids *)

Module UpsertFacts.
Import Python Store Reference Notions TableFacts.

Section Upsert.
Context {A : Type} (conflict : A → A → bool).

Lemma replace_all_snoc (batch : list A) (row : A) (t : table A) :
  replace_all conflict (batch ++ [row]) t
  = replace_into conflict row (replace_all conflict batch t).
Proof. unfold replace_all. by rewrite foldl_snoc. Qed.

Lemma contents_replace_all (batch : list A) (t : table A) :
  (replace_all conflict batch t).*2 = upsert_all conflict batch (t.*2).
Proof.
  induction batch as [|row batch IH] using rev_ind; [done|].
  by rewrite replace_all_snoc, upsert_all_snoc, contents_replace_into, IH.
Qed.

Lemma filter_all (P : A → Prop) `{!∀ x, Decision (P x)} (l : list A) :
  (∀ x, P x) → filter P l = l.
Proof.
  intros HP. induction l as [|x l IH]; [done|].
  rewrite filter_cons_True by done. by f_equal.
Qed.

(** Rows that collide with nothing are only ever added. *)
Lemma upsert_all_append (batch l : list A) :
  Forall (λ row, ∀ r, ¬ conflict row r) batch →
  upsert_all conflict batch l = l ++ batch.
Proof.
  induction batch as [|row batch IH] using rev_ind; intros Hall.
  - by rewrite app_nil_r.
  - apply Forall_app in Hall as [Hbatch Hrow].
    rewrite Forall_singleton in Hrow.
    rewrite upsert_all_snoc, IH by done. unfold upsert.
    rewrite filter_all by done. by rewrite app_assoc.
Qed.

(** The rows that collide with no row of the batch stay as they are,
    and every other row left is a row of the batch. *)
Lemma upsert_all_untouched (batch l : list A) :
  Forall (λ row, conflict row row) batch →
  filter (λ r, Forall (λ row, ¬ conflict row r) batch)
    (upsert_all conflict batch l)
  = filter (λ r, Forall (λ row, ¬ conflict row r) batch) l.
Proof.
  intros Hkeys. rewrite upsert_all_split, filter_app, list_filter_filter.
  rewrite (filter_none _ (upsert_all conflict batch [])).
  - rewrite app_nil_r. apply list_filter_iff. tauto.
  - intros x Hx%upsert_all_nil_elem Hall.
    rewrite Forall_forall in Hall, Hkeys.
    exact (Hall x Hx (Hkeys x Hx)).
Qed.

Lemma upsert_all_elem (batch l : list A) (r : A) :
  r ∈ upsert_all conflict batch l →
  (r ∈ l ∧ Forall (λ row, ¬ conflict row r) batch) ∨ r ∈ batch.
Proof.
  rewrite upsert_all_split, elem_of_app, list_elem_of_filter.
  intros [[Hall Hr]|Hr%upsert_all_nil_elem]; auto.
Qed.

Lemma unique_rows_filter (P : A → Prop) `{!∀ x, Decision (P x)} (l : list A) :
  unique_rows conflict l → unique_rows conflict (filter P l).
Proof.
  induction l as [|x l IH]; [done|]. intros [Hx Hl].
  destruct (decide (P x)).
  - rewrite filter_cons_True by done. split; [|by apply IH].
    rewrite Forall_forall in Hx |- *.
    intros y [_ Hy]%list_elem_of_filter. by apply Hx.
  - rewrite filter_cons_False by done. by apply IH.
Qed.

Lemma unique_rows_snoc (l : list A) (x : A) :
  unique_rows conflict l →
  Forall (λ y, ¬ conflict y x ∧ ¬ conflict x y) l →
  unique_rows conflict (l ++ [x]).
Proof.
  induction l as [|y l IH]; intros Hl Hx; simpl.
  - split; [constructor|done].
  - destruct Hl as [Hy Hl]. apply Forall_cons in Hx as [Hyx Hx].
    split; [|by apply IH].
    apply Forall_app. split; [done|]. by apply Forall_singleton.
Qed.

(** Rows of a kind that no row of the batch is of, and that no row of
    the batch collides with, stay as they are. *)
Lemma upsert_all_kind (P : A → Prop) `{!∀ x, Decision (P x)} (batch l : list A) :
  Forall (λ row, ¬ P row ∧ ∀ r, P r → ¬ conflict row r) batch →
  filter P (upsert_all conflict batch l) = filter P l.
Proof.
  induction batch as [|row batch IH] using rev_ind; intros Hall; [done|].
  apply Forall_app in Hall as [Hbatch Hrow].
  rewrite Forall_singleton in Hrow. destruct Hrow as [Hrow Hfree].
  rewrite upsert_all_snoc. unfold upsert.
  rewrite filter_app, list_filter_filter, filter_cons_False, filter_nil,
    app_nil_r by done.
  rewrite <- IH by done. apply list_filter_iff. intros x. split; [tauto|].
  intros Hx. split; [done|]. by apply Hfree.
Qed.

(** Colliding is agreeing on a key that is there. *)
Hypothesis conflict_l : ∀ p q r, conflict p q → conflict p r → conflict q r.
Hypothesis conflict_r : ∀ p q r, conflict q r → conflict p r → conflict p q.

Lemma conflict_sym (p q : A) : conflict p q → conflict q p.
Proof.
  intros Hpq. apply (conflict_l p q p Hpq). by apply (conflict_r p p q).
Qed.

(** INSERT OR REPLACE keeps the unique constraint. *)
Lemma unique_rows_upsert (row : A) (l : list A) :
  unique_rows conflict l → unique_rows conflict (upsert conflict row l).
Proof.
  intros Hl. unfold upsert. apply unique_rows_snoc.
  - by apply unique_rows_filter.
  - apply Forall_forall. intros y [Hy _]%list_elem_of_filter.
    split; [|done]. intros Hyrow. by apply Hy, conflict_sym.
Qed.

Lemma unique_rows_upsert_all (batch l : list A) :
  unique_rows conflict l → unique_rows conflict (upsert_all conflict batch l).
Proof.
  intros Hl. induction batch as [|row batch IH] using rev_ind; [done|].
  rewrite upsert_all_snoc. by apply unique_rows_upsert.
Qed.

(** After a batch, a key holds the last row the batch has for it, and
    what it held before when the batch has none. *)
Lemma upsert_all_last (batch l : list A) (p : A) :
  filter (λ r, conflict p r) (upsert_all conflict batch l)
  = match last (filter (λ r, conflict p r) batch) with
    | Some q => [q]
    | None => filter (λ r, conflict p r) l
    end.
Proof.
  induction batch as [|q batch IH] using rev_ind; [done|].
  rewrite upsert_all_snoc. unfold upsert at 1.
  rewrite !filter_app, list_filter_filter.
  destruct (decide (conflict p q)) as [Hpq|Hpq].
  - rewrite (filter_cons_True _ q) by done. rewrite filter_nil, last_snoc.
    rewrite filter_none; [done|].
    intros x _ [Hpx Hqx]. apply Hqx. by eapply conflict_l.
  - rewrite (filter_cons_False _ q) by done. rewrite filter_nil, !app_nil_r.
    rewrite <- IH. apply list_filter_iff. intros x. split; [tauto|].
    intros Hpx. split; [done|]. intros Hqx. apply Hpq. by eapply conflict_r.
Qed.

End Upsert.

(** A row added without an id gets an id that is not in use. *)
Lemma largest_rowid (i : Z) (ids : list Z) :
  (i ≤ foldr Z.max i ids)%Z ∧ Forall (λ j, j ≤ foldr Z.max i ids)%Z ids.
Proof.
  induction ids as [|j ids [IHi IH]]; [simpl; split; [lia|constructor]|].
  simpl. split; [lia|]. constructor; [lia|].
  eapply Forall_impl; [exact IH|]. simpl. lia.
Qed.

Lemma next_rowid_fresh {A} (t : table A) :
  Forall (λ i, i < next_rowid t)%Z (t.*1).
Proof.
  unfold next_rowid. destruct (t.*1) as [|i ids]; [constructor|].
  destruct (largest_rowid i ids) as [Hi Hids].
  constructor; [lia|].
  eapply Forall_impl; [exact Hids|]. simpl. lia.
Qed.

Lemma rowids_filter_elem {A} (P : Z * A → Prop) `{!∀ x, Decision (P x)}
    (t : table A) (i : Z) :
  i ∈ (filter P t).*1 → i ∈ t.*1.
Proof.
  rewrite !list_elem_of_fmap. intros (x & -> & [_ Hx]%list_elem_of_filter).
  eauto.
Qed.

Lemma rowids_filter {A} (P : Z * A → Prop) `{!∀ x, Decision (P x)}
    (t : table A) :
  NoDup (t.*1) → NoDup ((filter P t).*1).
Proof.
  induction t as [|x t IH]; [done|].
  rewrite fmap_cons. intros [Hx Ht]%NoDup_cons.
  destruct (decide (P x)).
  - rewrite filter_cons_True, fmap_cons by done. apply NoDup_cons.
    split; [|by apply IH]. intros Hin. by apply Hx, (rowids_filter_elem P).
  - rewrite filter_cons_False by done. by apply IH.
Qed.

Lemma rowids_replace_into {A} (conflict : A → A → bool) row (t : table A) :
  NoDup (t.*1) → NoDup ((replace_into conflict row t).*1).
Proof.
  intros Hids. unfold replace_into. rewrite fmap_app. simpl.
  apply NoDup_app. split; [|split].
  - by apply rowids_filter.
  - intros i Hi%rowids_filter_elem ->%list_elem_of_singleton.
    pose proof (next_rowid_fresh t) as Hfresh. rewrite Forall_forall in Hfresh.
    specialize (Hfresh _ Hi). lia.
  - apply NoDup_singleton.
Qed.

Lemma rowids_replace_all {A} (conflict : A → A → bool) batch (t : table A) :
  NoDup (t.*1) → NoDup ((replace_all conflict batch t).*1).
Proof.
  intros Hids. induction batch as [|row batch IH] using rev_ind; [done|].
  rewrite replace_all_snoc. by apply rowids_replace_into.
Qed.

Lemma u_signal_unique_l p q r :
  u_signal_unique p q → u_signal_unique p r → u_signal_unique q r.
Proof.
  unfold u_signal_unique. rewrite !andb_True, !bool_decide_spec.
  intros [[[[[H1 H2] H3] H4] H5] H6] [[[_ H7] H8] H9].
  rewrite <- H4, <- H5, <- H6. tauto.
Qed.

Lemma u_signal_unique_r p q r :
  u_signal_unique q r → u_signal_unique p r → u_signal_unique p q.
Proof.
  unfold u_signal_unique. rewrite !andb_True, !bool_decide_spec.
  intros [[[_ H4] H5] H6] [[[[[H1 H2] H3] H7] H8] H9].
  repeat split; congruence.
Qed.

Lemma u_signal_unique_refl p :
  present (se_ticker p) ∧ present (se_date p) ∧ present (se_signal_type p) →
  u_signal_unique p p.
Proof.
  unfold u_signal_unique. rewrite !andb_True, !bool_decide_spec. tauto.
Qed.

End UpsertFacts.

(** ** More on the two save operations *)

Module SaveFacts.
Import Python Store Reference Notions TableFacts StoreFacts FrameFacts UpsertFacts.

Section WithRuntime.
Context `{Runtime}.

(** A batch of metric statements that runs through has bound every
    record, and the relation is the rows replaced in turn. *)
Lemma run_batch_daily_inv engine n0 records db w t :
  run_batch engine n0 (daily_statements records) db = Ok w →
  daily_metrics db = Some t →
  ∃ batch,
    Forall2 (λ r row, daily_metrics_row r = Ok row) records batch
    ∧ w = {| tickers := tickers db;
             daily_metrics := Some (replace_all u_ticker_date batch t);
             signal_events := signal_events db |}.
Proof.
  revert n0 db t. induction records as [|r records IH]; intros n0 db t; simpl.
  - intros [= <-] Ht. exists []. split; [constructor|].
    simpl. rewrite <- Ht. by destruct db.
  - destruct (disk_fault engine n0); [done|].
    destruct (daily_metrics_row r) as [row|] eqn:Hrow; [|done].
    intros Hrun Ht. rewrite Ht in Hrun.
    destruct (IH _ _ _ Hrun eq_refl) as (batch & Hbatch & ->).
    exists (row :: batch). split; [by constructor|done].
Qed.

Lemma run_batch_events_inv engine n0 ticker events db w t :
  run_batch engine n0 (event_statements ticker events) db = Ok w →
  signal_events db = Some t →
  ∃ batch,
    Forall2 (λ ev row, signal_events_row (event_params ticker ev) = Ok row)
      events batch
    ∧ w = {| tickers := tickers db;
             daily_metrics := daily_metrics db;
             signal_events := Some (replace_all u_signal_unique batch t) |}.
Proof.
  revert n0 db t. induction events as [|ev events IH]; intros n0 db t; simpl.
  - intros [= <-] Ht. exists []. split; [constructor|].
    simpl. rewrite <- Ht. by destruct db.
  - destruct (disk_fault engine n0); [done|].
    destruct (signal_events_row _) as [row|] eqn:Hrow; [|done].
    intros Hrun Ht. rewrite Ht in Hrun.
    destruct (IH _ _ _ Hrun eq_refl) as (batch & Hbatch & ->).
    exists (row :: batch). split; [by constructor|done].
Qed.

(** Without its relation a batch runs through only when it is empty. *)
Lemma run_batch_daily_no_table engine n0 records db w :
  run_batch engine n0 (daily_statements records) db = Ok w →
  daily_metrics db = None → records = [] ∧ w = db.
Proof.
  destruct records as [|r records]; simpl; [by intros [= <-]|].
  destruct (disk_fault engine n0); [done|].
  destruct (daily_metrics_row r); [|done].
  intros Hrun Hnone. by rewrite Hnone in Hrun.
Qed.

Lemma run_batch_events_no_table engine n0 ticker events db w :
  run_batch engine n0 (event_statements ticker events) db = Ok w →
  signal_events db = None → events = [] ∧ w = db.
Proof.
  destruct events as [|ev events]; simpl; [by intros [= <-]|].
  destruct (disk_fault engine n0); [done|].
  destruct (signal_events_row _); [|done].
  intros Hrun Hnone. by rewrite Hnone in Hrun.
Qed.

Lemma signal_events_row_error params e :
  signal_events_row params = Raise e → e = BindingError.
Proof.
  unfold signal_events_row.
  destruct (_ ≫= _); [done|]. by intros [= <-].
Qed.

Lemma daily_metrics_row_error r e :
  daily_metrics_row r = Raise e →
  e = SqlSyntaxError ∨ e = BindingError ∨ e = NoSuchColumn.
Proof.
  unfold daily_metrics_row.
  repeat case_decide; [| |]; try destruct (daily_metric_of r);
    intros [= <-]; auto.
Qed.

(** With its relation in place a batch is never refused for a missing
    relation. *)
Lemma run_batch_daily_table engine n0 records db t :
  daily_metrics db = Some t →
  run_batch engine n0 (daily_statements records) db ≠ Raise NoSuchTable.
Proof.
  revert n0 db t. induction records as [|r records IH]; intros n0 db t Ht;
    simpl; [done|].
  destruct (disk_fault engine n0); [done|].
  destruct (daily_metrics_row r) as [row|e] eqn:Hrow.
  - rewrite Ht. by eapply IH.
  - apply daily_metrics_row_error in Hrow as [->|[->| ->]]; done.
Qed.

Lemma run_batch_events_table engine n0 ticker events db t :
  signal_events db = Some t →
  run_batch engine n0 (event_statements ticker events) db ≠ Raise NoSuchTable.
Proof.
  revert n0 db t. induction events as [|ev events IH]; intros n0 db t Ht;
    simpl; [done|].
  destruct (disk_fault engine n0); [done|].
  destruct (signal_events_row _) as [row|e] eqn:Hrow.
  - rewrite Ht. by eapply IH.
  - apply signal_events_row_error in Hrow as ->. done.
Qed.

(** What a call of [save_daily_metrics] leaves in its relation, whatever
    its outcome: the old rows with some batch of rows replaced in. *)
Lemma save_daily_metrics_table df engine db t :
  daily_metrics db = Some t →
  ∃ batch,
    daily_metrics (save_daily_metrics df engine db).2
    = Some (replace_all u_ticker_date batch t).
Proof.
  intros Ht. rewrite save_daily_metrics_unfold.
  destruct (metric_records df) as [records|]; [|by exists []].
  destruct (run_batch _ _ _ _) as [w|e] eqn:Hrun; [|by exists []].
  destruct (run_batch_daily_inv _ _ _ _ _ _ Hrun Ht) as (batch & _ & ->).
  by exists batch.
Qed.

(** Every row an event statement writes carries the ticker of the
    call. *)
Lemma signal_events_row_ticker ticker ev row :
  signal_events_row (event_params ticker ev) = Ok row →
  se_ticker row = SText ticker
  ∧ bind (dict_get ev "date") = Some (se_date row)
  ∧ bind (dict_get ev "signal_type") = Some (se_signal_type row)
  ∧ se_meta row = SText (py_str (dict_get ev "meta")).
Proof.
  unfold signal_events_row, placeholder.
  destruct (event_params_lookup ticker ev) as (-> & -> & -> & ->).
  remember (dict_get ev "date") as d.
  remember (dict_get ev "signal_type") as ttype.
  remember (dict_get ev "meta") as meta. simpl.
  destruct (bind d) as [sd|]; [|done]. simpl.
  destruct (bind ttype) as [st|]; [|done]. simpl.
  by intros [= <-].
Qed.

Lemma save_signal_events_table ticker events engine db t :
  signal_events db = Some t →
  ∃ batch,
    signal_events (save_signal_events ticker events engine db).2
    = Some (replace_all u_signal_unique batch t)
    ∧ Forall (λ row, se_ticker row = SText ticker) batch.
Proof.
  intros Ht. rewrite save_signal_events_unfold.
  destruct (run_batch _ _ _ _) as [w|e] eqn:Hrun; [|by exists []].
  destruct (run_batch_events_inv _ _ _ _ _ _ _ Hrun Ht) as (batch & Hrows & ->).
  exists batch. split; [done|]. clear Hrun.
  induction Hrows as [|ev row events batch Hrow _ IH]; [constructor|].
  constructor; [|done].
  by apply signal_events_row_ticker in Hrow as [? _].
Qed.

(** A valid batch of events against an existing relation. *)
Lemma run_batch_events engine n0 ticker events batch db t :
  reliable engine →
  Forall2 (λ ev row, signal_events_row (event_params ticker ev) = Ok row)
    events batch →
  signal_events db = Some t →
  run_batch engine n0 (event_statements ticker events) db
  = Ok {| tickers := tickers db; daily_metrics := daily_metrics db;
          signal_events := Some (replace_all u_signal_unique batch t) |}.
Proof.
  intros Hrel Hrows. revert n0 db t.
  induction Hrows as [|ev row events batch Hrow Hrows IH]; intros n0 db t Ht.
  - simpl. rewrite <- Ht. by destruct db.
  - simpl. rewrite Hrel, Hrow, Ht.
    by erewrite IH by reflexivity.
Qed.

Lemma save_signal_events_valid ticker events batch engine db t :
  valid_events ticker events batch → reliable engine →
  signal_events db = Some t →
  save_signal_events ticker events engine db
  = (Ok tt, {| tickers := tickers db; daily_metrics := daily_metrics db;
               signal_events := Some (replace_all u_signal_unique batch t) |}).
Proof.
  intros [Hrows _] Hrel Ht.
  by rewrite save_signal_events_unfold, (run_batch_events _ _ _ _ batch _ t).
Qed.

(** Where the rows of [signal_events] come from after a call. *)
Lemma save_signal_events_rows ticker events engine db r :
  r ∈ rows_of (signal_events (save_signal_events ticker events engine db).2) →
  r ∈ rows_of (signal_events db)
  ∨ ∃ ev, ev ∈ events
      ∧ se_ticker r = SText ticker
      ∧ bind (dict_get ev "date") = Some (se_date r)
      ∧ bind (dict_get ev "signal_type") = Some (se_signal_type r)
      ∧ se_meta r = SText (py_str (dict_get ev "meta")).
Proof.
  rewrite save_signal_events_unfold.
  destruct (run_batch _ _ _ _) as [w|e] eqn:Hrun; [|by left].
  simpl. destruct (signal_events db) as [t|] eqn:Ht.
  - destruct (run_batch_events_inv _ _ _ _ _ _ _ Hrun Ht) as (batch & Hrows & ->).
    unfold rows_of, contents. simpl. rewrite contents_replace_all.
    intros [[Hr _]|Hr]%upsert_all_elem; [by left|right].
    apply list_elem_of_lookup in Hr as [i Hi].
    destruct (Forall2_lookup_r _ _ _ _ _ Hrows Hi) as (ev & Hev & Hrow).
    exists ev. split; [by eapply list_elem_of_lookup_2|].
    by apply signal_events_row_ticker.
  - apply run_batch_events_no_table in Hrun as [_ ->]; [|done].
    rewrite Ht. by left.
Qed.


(** Without its relation, a batch that starts with a record that binds
    is refused for the relation. *)
Lemma run_batch_daily_missing engine records row1 rest db :
  reliable engine →
  daily_metrics db = None →
  records = row1 :: rest →
  (∃ row, daily_metrics_row row1 = Ok row) →
  run_batch engine 0 (daily_statements records) db = Raise NoSuchTable.
Proof.
  intros Hrel Hnone -> [row Hrow]. simpl. by rewrite Hrel, Hrow, Hnone.
Qed.


Lemma valid_events_keys ticker events batch :
  valid_events ticker events batch →
  Forall (λ row, u_signal_unique row row) batch.
Proof.
  intros [Hrows Hkeys]. apply Forall_forall. intros row Hrow.
  apply u_signal_unique_refl.
  rewrite Forall_forall in Hkeys. destruct (Hkeys row Hrow) as [Hd Ht].
  split; [|done].
  apply list_elem_of_lookup in Hrow as [i Hi].
  destruct (Forall2_lookup_r _ _ _ _ _ Hrows Hi) as (ev & _ & Hev).
  apply signal_events_row_ticker in Hev as [-> _]. done.
Qed.

End WithRuntime.
End SaveFacts.

(** ** The columns of a stored metric *)

Module ColumnFacts.
Import Python Store Reference Notions FrameFacts.

Section WithRuntime.
Context `{Runtime}.

(** A record sent to the store has keys among the columns of the
    frame. *)
Lemma metric_records_keys df records r k :
  metric_records df = Some records →
  r ∈ records → is_Some (r !! k) → k ∈ columns df.
Proof.
  unfold metric_records.
  destruct (convert_dates df) as [df2|] eqn:Hconv; [|done].
  apply convert_dates_columns in Hconv as <-.
  simpl. intros [= <-]. unfold to_dict_records, select. simpl.
  destruct (filter _ daily_metrics_columns) as [|c cs] eqn:Hcols;
    [by intros ?%elem_of_nil|].
  rewrite <- Hcols.
  intros (row & -> & _)%list_elem_of_fmap [v Hv].
  apply map_lookup_filter_Some in Hv as [_ Hk]. simpl in Hk.
  by apply list_elem_of_filter in Hk as [Hk _].
Qed.

(** Each column of a row is the value of the statement for it. *)
Lemma daily_metric_of_column r row c :
  daily_metric_of r = Some row →
  c ∈ daily_metrics_columns →
  column_value r c = Some (dm_column c row).
Proof.
  unfold daily_metric_of. intros Hrow Hc.
  destruct (column_value r "ticker") eqn:E1; [|done].
  destruct (column_value r "date") eqn:E2; [|done].
  destruct (column_value r "open") eqn:E3; [|done].
  destruct (column_value r "high") eqn:E4; [|done].
  destruct (column_value r "low") eqn:E5; [|done].
  destruct (column_value r "close") eqn:E6; [|done].
  destruct (column_value r "volume") eqn:E7; [|done].
  destruct (column_value r "sma50") eqn:E8; [|done].
  destruct (column_value r "sma200") eqn:E9; [|done].
  destruct (column_value r "price_to_book") eqn:E10; [|done].
  destruct (column_value r "bvps") eqn:E11; [|done].
  destruct (column_value r "enterprise_value") eqn:E12; [|done].
  simpl in Hrow. injection Hrow as <-.
  unfold daily_metrics_columns in Hc.
  repeat (apply elem_of_cons in Hc as [->|Hc]; [done|]).
  by apply elem_of_nil in Hc.
Qed.

Lemma daily_metrics_row_column r row c :
  daily_metrics_row r = Ok row →
  c ∈ daily_metrics_columns →
  column_value r c = Some (dm_column c row).
Proof.
  unfold daily_metrics_row. repeat case_decide; try done.
  destruct (daily_metric_of r) as [row'|] eqn:Hrow; [|done].
  intros [= <-]. by apply daily_metric_of_column.
Qed.

(** A column of the model that the frame does not have is NULL in the
    row of every record. *)
Lemma absent_column_row df records r row c :
  metric_records df = Some records →
  r ∈ records →
  daily_metrics_row r = Ok row →
  c ∈ daily_metrics_columns →
  c ∉ columns df →
  dm_column c row = SNull.
Proof.
  intros Hrec Hr Hrow Hc Habsent.
  pose proof (daily_metrics_row_column r row c Hrow Hc) as Hval.
  unfold column_value in Hval.
  destruct (r !! c) as [v|] eqn:Hv; [|by injection Hval].
  destruct Habsent. by eapply metric_records_keys.
Qed.

End WithRuntime.
End ColumnFacts.

(** ** Further properties of [database.py] *)

Module StoreExtras.
Import Python Store Reference Notions TableFacts StoreFacts FrameFacts.
Import UpsertFacts SaveFacts ColumnFacts.

Section WithRuntime.
Context `{Runtime}.

(** X1. Saving a valid batch of signal events twice in a row leaves the
    store as saving it once: on a reliable engine and with the relation
    in place both calls return, the three relations hold the same rows
    after the second call as after the first, and each (ticker, date,
    signal type) of the batch is held by exactly one row. *)
Theorem save_signal_events_idempotent (ticker : string)
    (events : list pydict) (batch : list SignalEvent) (engine : Engine)
    (db : Database) :
  valid_events ticker events batch →
  reliable engine →
  is_Some (signal_events db) →
  ∃ db1 db2,
    save_signal_events ticker events engine db = (Ok tt, db1)
    ∧ save_signal_events ticker events engine db1 = (Ok tt, db2)
    ∧ observable db2 = observable db1
    ∧ Forall (λ row,
        length (rows_for u_signal_unique row (signal_events db2)) = 1) batch.
Proof.
  intros Hvalid Hrel [t Ht].
  pose proof (valid_events_keys _ _ _ Hvalid) as Hkeys.
  eexists _, _.
  split; [by apply (save_signal_events_valid _ _ batch _ _ t)|].
  split; [by apply (save_signal_events_valid _ _ batch)|].
  split.
  - unfold observable, contents. simpl. do 2 f_equal.
    rewrite !contents_replace_all. by rewrite upsert_all_idempotent.
  - rewrite Forall_forall in Hkeys |- *. intros row Hrow.
    unfold rows_for, contents. simpl. rewrite contents_replace_all.
    apply (upsert_all_one_row _ u_signal_unique_l u_signal_unique_r); auto.
Qed.

(** X2. Within a batch the last record of a key wins: after a valid
    batch is saved, the rows stored for any (ticker, date) are the last
    record the batch has for that key, alone, and what was stored before
    when the batch has no record for it. *)
Theorem last_record_wins (df : DataFrame) (batch : list DailyMetric)
    (engine : Engine) (db : Database) :
  valid_batch df batch →
  reliable engine →
  is_Some (daily_metrics db) →
  ∃ db',
    save_daily_metrics df engine db = (Ok tt, db')
    ∧ ∀ p, rows_for u_ticker_date p (daily_metrics db')
           = match last (filter (λ r, u_ticker_date p r) batch) with
             | Some q => [q]
             | None => rows_for u_ticker_date p (daily_metrics db)
             end.
Proof.
  intros Hvalid Hrel [t Ht].
  destruct (save_daily_metrics_valid df batch engine db t Hvalid Hrel Ht)
    as (t' & Hcall & Ht').
  eexists. split; [exact Hcall|]. intros p.
  unfold rows_for, contents. simpl. rewrite Ht', Ht. simpl.
  apply (upsert_all_last _ u_ticker_date_l u_ticker_date_r).
Qed.

(** X3. A valid batch leaves the other rows alone: the rows that collide
    with no record of the batch are the same after the call as before, in
    the same order, and every other row stored after the call is a
    record of the batch. *)
Theorem other_rows_untouched (df : DataFrame) (batch : list DailyMetric)
    (engine : Engine) (db : Database) :
  valid_batch df batch →
  reliable engine →
  is_Some (daily_metrics db) →
  ∃ db',
    save_daily_metrics df engine db = (Ok tt, db')
    ∧ filter (λ r, Forall (λ row, ¬ u_ticker_date row r) batch)
        (rows_of (daily_metrics db'))
      = filter (λ r, Forall (λ row, ¬ u_ticker_date row r) batch)
          (rows_of (daily_metrics db))
    ∧ ∀ r, r ∈ rows_of (daily_metrics db') →
           (r ∈ rows_of (daily_metrics db)
            ∧ Forall (λ row, ¬ u_ticker_date row r) batch)
           ∨ r ∈ batch.
Proof.
  intros Hvalid Hrel [t Ht].
  destruct (save_daily_metrics_valid df batch engine db t Hvalid Hrel Ht)
    as (t' & Hcall & Ht').
  destruct Hvalid as (_ & _ & _ & Hkeys).
  eexists. split; [exact Hcall|].
  unfold rows_of, contents. simpl. rewrite Ht', Ht. simpl. split.
  - apply upsert_all_untouched.
    eapply Forall_impl; [exact Hkeys|]. intros row. apply u_ticker_date_refl.
  - intros r. apply upsert_all_elem.
Qed.

(** X4. [save_signal_events] for one ticker never touches the events
    of another: whatever the events, the engine and the outcome, the rows
    of [signal_events] with another ticker are the same after the call
    as before, in the same order. *)
Theorem other_tickers_events_untouched (ticker : string)
    (events : list pydict) (engine : Engine) (db : Database) :
  filter (λ r, se_ticker r ≠ SText ticker)
    (rows_of (signal_events (save_signal_events ticker events engine db).2))
  = filter (λ r, se_ticker r ≠ SText ticker) (rows_of (signal_events db)).
Proof.
  destruct (signal_events db) as [t|] eqn:Ht.
  - destruct (save_signal_events_table ticker events engine db t Ht)
      as (batch & -> & Hbatch).
    unfold rows_of, contents. simpl. rewrite contents_replace_all.
    apply upsert_all_kind.
    eapply Forall_impl; [exact Hbatch|]. intros row Hrow. split; [tauto|].
    intros r Hr. unfold u_signal_unique.
    rewrite !andb_True, !bool_decide_spec. intros [[[_ Heq] _] _].
    congruence.
  - rewrite save_signal_events_unfold.
    destruct (run_batch _ _ _ _) as [w|e] eqn:Hrun; simpl; [|by rewrite Ht].
    apply run_batch_events_no_table in Hrun as [_ ->]; by rewrite ?Ht.
Qed.


(** X6. The unique constraints are kept: when no two rows of
    [daily_metrics] agree on (ticker, date) and no two rows of
    [signal_events] on (ticker, date, signal type) before a call of
    either operation, none do after it, whatever the input and the
    outcome. *)
Theorem unique_constraints_kept (df : DataFrame) (ticker : string)
    (events : list pydict) (engine : Engine) (db : Database) :
  unique_rows u_ticker_date (rows_of (daily_metrics db)) →
  unique_rows u_signal_unique (rows_of (signal_events db)) →
  (unique_rows u_ticker_date
     (rows_of (daily_metrics (save_daily_metrics df engine db).2))
   ∧ unique_rows u_signal_unique
       (rows_of (signal_events (save_daily_metrics df engine db).2)))
  ∧ (unique_rows u_ticker_date
       (rows_of (daily_metrics (save_signal_events ticker events engine db).2))
     ∧ unique_rows u_signal_unique
         (rows_of
            (signal_events (save_signal_events ticker events engine db).2))).
Proof.
  intros Hdaily Hevents.
  destruct (save_daily_metrics_frame df engine db) as [_ Hs].
  destruct (save_signal_events_frame ticker events engine db) as [_ Hd].
  rewrite Hs, Hd. repeat split; try done.
  - destruct (daily_metrics db) as [t|] eqn:Ht.
    + destruct (save_daily_metrics_table df engine db t Ht) as (batch & ->).
      unfold rows_of, contents in *. simpl in *.
      rewrite contents_replace_all.
      by apply (unique_rows_upsert_all _ u_ticker_date_l u_ticker_date_r).
    + rewrite save_daily_metrics_unfold.
      destruct (metric_records df) as [records|]; simpl; [|by rewrite Ht].
      destruct (run_batch _ _ _ _) as [w|e] eqn:Hrun; simpl; [|by rewrite Ht].
      apply run_batch_daily_no_table in Hrun as [_ ->]; by rewrite ?Ht.
  - destruct (signal_events db) as [t|] eqn:Ht.
    + destruct (save_signal_events_table ticker events engine db t Ht)
        as (batch & -> & _).
      unfold rows_of, contents in *. simpl in *.
      rewrite contents_replace_all.
      by apply (unique_rows_upsert_all _ u_signal_unique_l u_signal_unique_r).
    + rewrite save_signal_events_unfold.
      destruct (run_batch _ _ _ _) as [w|e] eqn:Hrun; simpl; [|by rewrite Ht].
      apply run_batch_events_no_table in Hrun as [_ ->]; by rewrite ?Ht.
Qed.

(** X7. The integer primary key stays a key: when the ids of a
    relation are distinct before a call of the operation that writes it,
    they are distinct after it, whatever the input and the outcome (a
    replaced row gets an id that is not in use). *)
Theorem rowids_stay_distinct (df : DataFrame) (ticker : string)
    (events : list pydict) (engine : Engine) (db : Database) :
  NoDup (rowids (daily_metrics db)) →
  NoDup (rowids (signal_events db)) →
  NoDup (rowids (daily_metrics (save_daily_metrics df engine db).2))
  ∧ NoDup (rowids
             (signal_events (save_signal_events ticker events engine db).2)).
Proof.
  intros Hdaily Hevents. split.
  - destruct (daily_metrics db) as [t|] eqn:Ht.
    + destruct (save_daily_metrics_table df engine db t Ht) as (batch & ->).
      by apply rowids_replace_all.
    + rewrite save_daily_metrics_unfold.
      destruct (metric_records df) as [records|]; simpl; [|by rewrite Ht].
      destruct (run_batch _ _ _ _) as [w|e] eqn:Hrun; simpl; [|by rewrite Ht].
      apply run_batch_daily_no_table in Hrun as [_ ->]; by rewrite ?Ht.
  - destruct (signal_events db) as [t|] eqn:Ht.
    + destruct (save_signal_events_table ticker events engine db t Ht)
        as (batch & -> & _).
      by apply rowids_replace_all.
    + rewrite save_signal_events_unfold.
      destruct (run_batch _ _ _ _) as [w|e] eqn:Hrun; simpl; [|by rewrite Ht].
      apply run_batch_events_no_table in Hrun as [_ ->]; by rewrite ?Ht.
Qed.

(** X8. A frame without a [ticker] column, or without a [date] column,
    replaces nothing: when the call returns, the relation holds the rows
    it held, in order, followed by one new row per record of the batch,
    so a replay of such a frame stores its rows again. *)
Theorem keyless_frame_only_appends (df : DataFrame) (engine : Engine)
    (db db' : Database) :
  "ticker" ∉ columns df ∨ "date" ∉ columns df →
  save_daily_metrics df engine db = (Ok tt, db') →
  ∃ records batch,
    metric_records df = Some records
    ∧ length batch = length records
    ∧ rows_of (daily_metrics db') = rows_of (daily_metrics db) ++ batch.
Proof.
  intros Hkey. rewrite save_daily_metrics_unfold.
  destruct (metric_records df) as [records|] eqn:Hrec; [|done].
  destruct (run_batch _ _ _ _) as [w|e] eqn:Hrun; [|done].
  intros [= <-]. exists records.
  destruct (daily_metrics db) as [t|] eqn:Ht.
  - destruct (run_batch_daily_inv _ _ _ _ _ _ Hrun Ht) as (batch & Hrows & ->).
    exists batch. split; [done|].
    split; [symmetry; by eapply Forall2_length|].
    unfold rows_of, contents. simpl. rewrite contents_replace_all.
    apply upsert_all_append, Forall_forall. intros row Hrow r.
    apply list_elem_of_lookup in Hrow as [i Hi].
    destruct (Forall2_lookup_r _ _ _ _ _ Hrows Hi) as (rec & Hrec' & Hbind).
    apply list_elem_of_lookup_2 in Hrec'.
    unfold u_ticker_date. destruct Hkey as [Hkey|Hkey].
    + assert (dm_ticker row = SNull) as ->; [|intros Hf; exact Hf].
      apply (absent_column_row df records rec row "ticker"); try done.
      unfold daily_metrics_columns. set_solver.
    + assert (dm_date row = SNull) as ->.
      2:{ simpl. rewrite andb_false_r. intros Hf; exact Hf. }
      apply (absent_column_row df records rec row "date"); try done.
      unfold daily_metrics_columns. set_solver.
  - apply run_batch_daily_no_table in Hrun as [-> ->]; [|done].
    exists []. rewrite Ht. by rewrite app_nil_r.
Qed.

(** X9. A column of the model that the frame does not have is stored as
    NULL: when the call returns, every row of the relation was there
    before or has NULL in that column. *)
Theorem absent_column_is_null (df : DataFrame) (engine : Engine)
    (db db' : Database) (c : string) :
  c ∈ daily_metrics_columns →
  c ∉ columns df →
  save_daily_metrics df engine db = (Ok tt, db') →
  ∀ row, row ∈ rows_of (daily_metrics db') →
         row ∈ rows_of (daily_metrics db) ∨ dm_column c row = SNull.
Proof.
  intros Hc Habsent. rewrite save_daily_metrics_unfold.
  destruct (metric_records df) as [records|] eqn:Hrec; [|done].
  destruct (run_batch _ _ _ _) as [w|e] eqn:Hrun; [|done].
  intros [= <-] row.
  destruct (daily_metrics db) as [t|] eqn:Ht.
  - destruct (run_batch_daily_inv _ _ _ _ _ _ Hrun Ht) as (batch & Hrows & ->).
    unfold rows_of, contents. simpl. rewrite contents_replace_all.
    intros [[Hrow _]|Hrow]%upsert_all_elem; [by left|right].
    apply list_elem_of_lookup in Hrow as [i Hi].
    destruct (Forall2_lookup_r _ _ _ _ _ Hrows Hi) as (rec & Hrec' & Hbind).
    apply list_elem_of_lookup_2 in Hrec'.
    by apply (absent_column_row df records rec row c).
  - apply run_batch_daily_no_table in Hrun as [_ ->]; [|done].
    rewrite Ht. by left.
Qed.

(** X10. [init_db] is safe to call at every start: it keeps the rows of
    the relations that exist and creates the others empty, calling it
    twice is calling it once, and after it neither save operation is
    ever refused for a missing relation. *)
Theorem init_db_is_safe (db : Database) :
  init_db (init_db db) = init_db db
  ∧ observable (init_db db)
    = (Some (rows_of (tickers db)), Some (rows_of (daily_metrics db)),
       Some (rows_of (signal_events db)))
  ∧ (∀ df engine,
       (save_daily_metrics df engine (init_db db)).1 ≠ Raise NoSuchTable)
  ∧ (∀ ticker events engine,
       (save_signal_events ticker events engine (init_db db)).1
       ≠ Raise NoSuchTable).
Proof.
  split; [done|]. split.
  { unfold observable, rows_of, contents, init_db. simpl.
    by destruct (tickers db), (daily_metrics db), (signal_events db). }
  split.
  - intros df engine. rewrite save_daily_metrics_unfold.
    destruct (metric_records df) as [records|]; [|done].
    pose proof (run_batch_daily_table engine 0 records (init_db db) _ eq_refl)
      as Htable.
    destruct (run_batch _ _ _ _) as [w|e]; [done|]. simpl. congruence.
  - intros ticker events engine. rewrite save_signal_events_unfold.
    pose proof (run_batch_events_table engine 0 ticker events (init_db db) _
                  eq_refl) as Htable.
    destruct (run_batch _ _ _ _) as [w|e]; [done|]. simpl. congruence.
Qed.

(** X13. Before [init_db]: on a database without the [daily_metrics]
    relation a valid batch that is not empty is refused for the missing
    relation and nothing is written, while an empty batch returns
    without a word, since the call returns before it sends anything. *)
Theorem save_before_init_db (df : DataFrame) (batch : list DailyMetric)
    (engine : Engine) (db : Database) :
  valid_batch df batch →
  reliable engine →
  daily_metrics db = None →
  save_daily_metrics df engine db
  = if decide (batch = []) then (Ok tt, db) else (Raise NoSuchTable, db).
Proof.
  intros (records & Hrec & Hrows & _) Hrel Hnone.
  rewrite save_daily_metrics_unfold, Hrec.
  destruct Hrows as [|r row records batch Hrow Hrows].
  - by rewrite decide_True.
  - rewrite decide_False by done.
    by erewrite run_batch_daily_missing; eauto.
Qed.


End WithRuntime.
End StoreExtras.

(** ** Further properties of [main.py] *)

Module MainExtras.
Import Python Store Reference Notions TableFacts StoreFacts.
Import UpsertFacts SaveFacts Main.

Section Run.
Context `{Runtime}.
Variable Raw : Type.
Variable fetch_stock_data : string → option Raw.
Variable process_data : Raw → option DataFrame.
Variable detect_golden_crossover : DataFrame → option (list pyval).
Variable detect_death_cross : DataFrame → option (list pyval).
Variable assign_naive_dates : DataFrame → option DataFrame.
Variable assign_datetimes : DataFrame → option DataFrame.
Variable export_json : string → string → list pydict → bool.

Local Abbreviation pipeline :=
  (run Raw fetch_stock_data process_data detect_golden_crossover
     detect_death_cross assign_naive_dates assign_datetimes export_json).
Local Abbreviation analysis :=
  (analyse Raw fetch_stock_data process_data detect_golden_crossover
     detect_death_cross assign_naive_dates assign_datetimes).

(** X11. A run is two transactions, not one. When saving the metrics
    raises, the run raises the same error and the events are never
    sent; when the metrics are saved and saving the events raises, the
    run raises that error and the metrics stay committed. *)
Theorem run_is_two_transactions (ticker output : string) (initdb : bool)
    (engine : Engine) (db : Database) (to_save : DataFrame)
    (events : list pydict) :
  analysis ticker = Some (to_save, events) →
  match save_daily_metrics to_save engine (if initdb then init_db db else db)
  with
  | (Raise e, _) =>
      pipeline ticker output initdb engine db
      = (Raise e, if initdb then init_db db else db)
  | (Ok _, db1) =>
      ∀ e, (save_signal_events ticker events engine db1).1 = Raise e →
           pipeline ticker output initdb engine db = (Raise e, db1)
  end.
Proof.
  intros Han. unfold run. rewrite Han.
  set (db0 := if initdb then init_db db else db).
  pose proof (save_daily_metrics_unfold to_save engine db0) as Hdaily.
  destruct (save_daily_metrics to_save engine db0) as [[[]|e] db1].
  - intros e He.
    pose proof (save_signal_events_unfold ticker events engine db1) as Hev.
    destruct (save_signal_events ticker events engine db1) as [[[]|e'] db2];
      simpl in He; [done|].
    injection He as ->.
    destruct (run_batch _ _ _ _); [done|]. by injection Hev as _ ->.
  - destruct (metric_records to_save); [|by injection Hdaily as _ ->].
    destruct (run_batch _ _ _ _); [done|]. by injection Hdaily as _ ->.
Qed.

(** X12. The pipeline can be run again: when the analysis gives a valid
    batch of metrics and a valid batch of events, the engine is reliable
    and the export goes through, a run with [initdb] returns, a second
    run on what it left returns too, and the three relations hold the
    same rows after the second run as after the first. *)
Theorem run_is_idempotent (ticker output : string) (initdb : bool)
    (engine : Engine) (db : Database) (to_save : DataFrame)
    (events : list pydict) (metrics : list DailyMetric)
    (signals : list SignalEvent) :
  analysis ticker = Some (to_save, events) →
  valid_batch to_save metrics →
  valid_events ticker events signals →
  reliable engine →
  export_json output ticker events = true →
  ∃ db1 db2,
    pipeline ticker output true engine db = (Ok tt, db1)
    ∧ pipeline ticker output initdb engine db1 = (Ok tt, db2)
    ∧ observable db2 = observable db1.
Proof.
  intros Han Hmetrics Hsignals Hrel Hexport.
  pose proof (valid_events_keys _ _ _ Hsignals) as Hskeys.
  assert (Forall (λ row, u_ticker_date row row) metrics) as Hmkeys.
  { destruct Hmetrics as (_ & _ & _ & Hkeys).
    eapply Forall_impl; [exact Hkeys|]. intros row. apply u_ticker_date_refl. }
  destruct (save_daily_metrics_valid to_save metrics engine (init_db db) _
              Hmetrics Hrel eq_refl) as (t1 & Hcall1 & Ht1).
  set (s1 := replace_all u_signal_unique signals
               (default [] (signal_events db))).
  set (db1 := {| tickers := tickers (init_db db); daily_metrics := Some t1;
                 signal_events := Some s1 |}).
  destruct (save_daily_metrics_valid to_save metrics engine db1 t1
              Hmetrics Hrel eq_refl) as (t2 & Hcall2 & Ht2).
  exists db1,
    {| tickers := tickers (init_db db); daily_metrics := Some t2;
       signal_events := Some (replace_all u_signal_unique signals s1) |}.
  split; [|split].
  - unfold run. rewrite Han, Hexport, Hcall1.
    by erewrite (save_signal_events_valid ticker events signals).
  - unfold run. rewrite Han, Hexport.
    assert ((if initdb then init_db db1 else db1) = db1) as ->
      by (by destruct initdb).
    rewrite Hcall2.
    by erewrite (save_signal_events_valid ticker events signals).
  - unfold observable, contents. simpl.
    rewrite Ht2, Ht1. unfold s1. rewrite !contents_replace_all.
    by rewrite !upsert_all_idempotent.
Qed.

(** The events a run builds: golden crosses and death crosses, each
    with an empty meta. *)
Lemma analyse_events ticker to_save events :
  analysis ticker = Some (to_save, events) →
  Forall (λ ev,
      dict_get ev "meta" = PObject "{}"
      ∧ (dict_get ev "signal_type" = PStr "golden_cross"
         ∨ dict_get ev "signal_type" = PStr "death_cross")) events.
Proof.
  unfold analyse.
  destruct (fetch_stock_data ticker) as [raw|]; [|done]. simpl.
  destruct (process_data raw) as [processed|]; [|done]. simpl.
  destruct (assign_naive_dates processed) as [naive|]; [|done]. simpl.
  destruct (detect_golden_crossover naive) as [golden|]; [|done]. simpl.
  destruct (assign_datetimes naive ≫= detect_death_cross) as [death|];
    [|done]. simpl.
  destruct (assign_datetimes naive) as [saved|]; [|done]. simpl.
  intros [= _ <-]. apply Forall_app. split.
  - apply Forall_fmap, Forall_forall. intros d _. split; [done|by left].
  - apply Forall_fmap, Forall_forall. intros d _. split; [done|by right].
Qed.

(** X15. A run stores crossover events of its own ticker only: whatever
    the collaborators return and however the run ends, a row of
    [signal_events] after it was there before or carries the ticker of
    the run, the signal type [golden_cross] or [death_cross], and as
    meta the text of an empty dict. *)
Theorem run_stores_crossover_events (ticker output : string) (initdb : bool)
    (engine : Engine) (db : Database) (r : SignalEvent) :
  r ∈ rows_of (signal_events (pipeline ticker output initdb engine db).2) →
  r ∈ rows_of (signal_events db)
  ∨ (se_ticker r = SText ticker
     ∧ (se_signal_type r = SText "golden_cross"
        ∨ se_signal_type r = SText "death_cross")
     ∧ se_meta r = SText (py_str (PObject "{}"))).
Proof.
  unfold run. set (db0 := if initdb then init_db db else db).
  assert (rows_of (signal_events db0) = rows_of (signal_events db)) as <-.
  { unfold db0. destruct initdb; [|done].
    unfold rows_of, contents. simpl. by destruct (signal_events db). }
  destruct (analysis ticker) as [[to_save events]|] eqn:Han; [|by left].
  apply analyse_events in Han.
  pose proof (save_daily_metrics_frame to_save engine db0) as [_ Hframe].
  destruct (save_daily_metrics to_save engine db0) as [[[]|e] db1];
    simpl in Hframe; [|simpl; rewrite Hframe; by left].
  rewrite <- Hframe.
  assert (r ∈ rows_of
            (signal_events (save_signal_events ticker events engine db1).2) →
          r ∈ rows_of (signal_events db1)
          ∨ (se_ticker r = SText ticker
             ∧ (se_signal_type r = SText "golden_cross"
                ∨ se_signal_type r = SText "death_cross")
             ∧ se_meta r = SText (py_str (PObject "{}")))) as Hrows.
  { intros [Hold|(ev & Hev & Hticker & _ & Htype & Hmeta)]%save_signal_events_rows;
      [by left|right].
    rewrite Forall_forall in Han. destruct (Han ev Hev) as [Hm Ht].
    rewrite Hm in Hmeta. split; [done|]. split; [|done].
    destruct Ht as [Ht|Ht]; rewrite Ht in Htype; injection Htype as <-; auto. }
  destruct (save_signal_events ticker events engine db1) as [[[]|e] db2];
    simpl in *; [|done].
  by destruct (export_json output ticker events).
Qed.

End Run.
End MainExtras.

(** ** The further properties at work on the sample data *)

Module MoreChecks.
Import Python Store Reference Notions Main Sample Cases.
Import StoreExtras MainExtras.

Lemma engine_reliable : reliable sound_engine.
Proof. intros n. reflexivity. Qed.

Lemma two_signals_valid :
  valid_events (H := sample_runtime) "RELIANCE.NS" two_signals
    [stored_signal 738001; stored_signal 738002].
Proof. split; repeat constructor. Defined.

Lemma restated_day_batch :
  valid_batch (H := sample_runtime) restated_day
    [stored 738000 100; stored 738000 105].
Proof.
  eexists. split; [vm_compute; reflexivity|]. split.
  - repeat (constructor; [vm_compute; reflexivity|]). constructor.
  - repeat constructor.
Qed.

Lemma seeded_created : is_Some (daily_metrics seeded).
Proof. eexists. vm_compute. reflexivity. Qed.

(** X1 on the sample: two golden crosses saved twice. *)
Lemma save_signal_events_idempotent_sample :
  ∃ db1 db2,
    save_signal_events (H := sample_runtime) "RELIANCE.NS" two_signals
      sound_engine fresh = (Ok tt, db1)
    ∧ save_signal_events (H := sample_runtime) "RELIANCE.NS" two_signals
        sound_engine db1 = (Ok tt, db2)
    ∧ observable db2 = observable db1
    ∧ Forall (λ row,
        length (rows_for u_signal_unique row (signal_events db2)) = 1)
        [stored_signal 738001; stored_signal 738002].
Proof.
  apply (save_signal_events_idempotent (H := sample_runtime)).
  - exact two_signals_valid.
  - exact engine_reliable.
  - by eexists.
Defined.

(** X2 on the sample: the same day at 100 and then at 105 in one frame
    leaves the row at 105. *)
Lemma last_record_wins_sample :
  ∃ db',
    save_daily_metrics (H := sample_runtime) restated_day sound_engine fresh
    = (Ok tt, db')
    ∧ rows_for u_ticker_date (stored 738000 100) (daily_metrics db')
      = [stored 738000 105].
Proof.
  destruct (last_record_wins (H := sample_runtime) restated_day
              [stored 738000 100; stored 738000 105] sound_engine fresh
              restated_day_batch engine_reliable (ex_intro _ [] eq_refl))
    as (db' & Hcall & Hlast).
  exists db'. split; [exact Hcall|]. rewrite Hlast. vm_compute. reflexivity.
Defined.

(** X3 on the sample: two days saved into the seeded store. *)
Lemma other_rows_untouched_sample :
  ∃ db',
    save_daily_metrics (H := sample_runtime) two_days sound_engine seeded
    = (Ok tt, db')
    ∧ filter (λ r, Forall (λ row, ¬ u_ticker_date row r)
                     [stored 738000 100; stored 738001 (203 # 2)])
        (rows_of (daily_metrics db'))
      = [stored 737999 99].
Proof.
  destruct (other_rows_untouched (H := sample_runtime) two_days
              [stored 738000 100; stored 738001 (203 # 2)] sound_engine seeded
              Checks.two_days_valid engine_reliable seeded_created)
    as (db' & Hcall & Hsame & _).
  exists db'. split; [exact Hcall|]. rewrite Hsame. vm_compute. reflexivity.
Defined.


(** X6 on the sample: two days and two events saved into the seeded
    store. *)
Lemma unique_constraints_kept_sample :
  unique_rows u_ticker_date
    (rows_of
       (daily_metrics
          (save_daily_metrics (H := sample_runtime) two_days sound_engine
             seeded).2))
  ∧ unique_rows u_signal_unique
      (rows_of
         (signal_events
            (save_signal_events (H := sample_runtime) "RELIANCE.NS"
               two_signals sound_engine seeded).2)).
Proof.
  assert (unique_rows u_ticker_date (rows_of (daily_metrics seeded))) as Hd.
  { vm_compute. split; [constructor|exact I]. }
  assert (unique_rows u_signal_unique (rows_of (signal_events seeded))) as Hs.
  { vm_compute. exact I. }
  destruct (unique_constraints_kept (H := sample_runtime) two_days
              "RELIANCE.NS" two_signals sound_engine seeded Hd Hs)
    as [[Hdaily _] [_ Hsignals]].
  split; [exact Hdaily|exact Hsignals].
Defined.

(** X7 on the sample. *)
Lemma rowids_stay_distinct_sample :
  NoDup (rowids
           (daily_metrics
              (save_daily_metrics (H := sample_runtime) two_days sound_engine
                 seeded).2))
  ∧ NoDup (rowids
             (signal_events
                (save_signal_events (H := sample_runtime) "RELIANCE.NS"
                   two_signals sound_engine seeded).2)).
Proof.
  apply (rowids_stay_distinct (H := sample_runtime)).
  - vm_compute. apply NoDup_singleton.
  - vm_compute. apply NoDup_nil_2.
Defined.

(** X8 on the sample: the frame without tickers, saved into a store
    that already holds its rows, leaves them twice. *)
Lemma keyless_frame_only_appends_sample :
  ∃ records batch,
    metric_records (H := sample_runtime) keyless = Some records
    ∧ length batch = length records
    ∧ rows_of
        (daily_metrics
           (save_daily_metrics (H := sample_runtime) keyless sound_engine
              (save_daily_metrics (H := sample_runtime) keyless sound_engine
                 fresh).2).2)
      = rows_of
          (daily_metrics
             (save_daily_metrics (H := sample_runtime) keyless sound_engine
                fresh).2)
        ++ batch.
Proof.
  apply (keyless_frame_only_appends (H := sample_runtime) keyless sound_engine).
  - left. apply (bool_decide_unpack _). vm_compute. exact I.
  - vm_compute. reflexivity.
Defined.

(** X9 on the sample: the frame of two days has no [sma50] column. *)
Lemma absent_column_is_null_sample :
  stored 738001 (203 # 2)
    ∈ rows_of
        (daily_metrics
           (save_daily_metrics (H := sample_runtime) two_days sound_engine
              seeded).2)
  ∧ (stored 738001 (203 # 2) ∈ rows_of (daily_metrics seeded)
     ∨ dm_column "sma50" (stored 738001 (203 # 2)) = SNull).
Proof.
  assert (stored 738001 (203 # 2)
            ∈ rows_of
                (daily_metrics
                   (save_daily_metrics (H := sample_runtime) two_days
                      sound_engine seeded).2)) as Hin.
  { vm_compute. right. right. left. }
  split; [exact Hin|].
  apply (absent_column_is_null (H := sample_runtime) two_days sound_engine
           seeded
           (save_daily_metrics (H := sample_runtime) two_days sound_engine
              seeded).2 "sma50"); [| | |exact Hin].
  - apply (bool_decide_unpack _). vm_compute. exact I.
  - apply (bool_decide_unpack _). vm_compute. exact I.
  - vm_compute. reflexivity.
Defined.

(** X13 on the sample: two days saved before the relations exist. *)
Lemma save_before_init_db_sample :
  save_daily_metrics (H := sample_runtime) two_days sound_engine
    empty_database
  = (Raise NoSuchTable, empty_database).
Proof.
  exact (save_before_init_db (H := sample_runtime) two_days _ sound_engine
           empty_database Checks.two_days_valid engine_reliable eq_refl).
Defined.

(** X11 on the sample: the detector returns a pandas timestamp, which
    the driver cannot bind; the metrics are committed, the run raises. *)
Lemma run_is_two_transactions_sample :
  sample_analysis [PObject "Timestamp"] "RELIANCE.NS"
  = Some (two_days, [golden (PObject "Timestamp")])
  ∧ sample_run [PObject "Timestamp"] true sound_engine empty_database
    = (Raise BindingError,
       (save_daily_metrics (H := sample_runtime) two_days sound_engine
          fresh).2).
Proof.
  assert (sample_analysis [PObject "Timestamp"] "RELIANCE.NS"
          = Some (two_days, [golden (PObject "Timestamp")])) as Han
    by (vm_compute; reflexivity).
  split; [exact Han|].
  pose proof (run_is_two_transactions (H := sample_runtime) DataFrame
                (λ _, Some two_days) Some (λ _, Some [PObject "Timestamp"])
                (λ _, Some []) Some Some sample_export
                "RELIANCE.NS" "analysis.json" true sound_engine
                empty_database two_days [golden (PObject "Timestamp")] Han)
    as Hrun.
  vm_compute in Hrun. vm_compute.
  exact (Hrun BindingError eq_refl).
Defined.

(** X12 on the sample: the pipeline run twice, its golden cross dated
    by an ISO text. *)
Lemma run_is_idempotent_sample :
  ∃ db1 db2,
    sample_run [PStr "2024-01-03"] true sound_engine empty_database
    = (Ok tt, db1)
    ∧ sample_run [PStr "2024-01-03"] false sound_engine db1 = (Ok tt, db2)
    ∧ observable db2 = observable db1.
Proof.
  apply (run_is_idempotent (H := sample_runtime) DataFrame
           (λ _, Some two_days) Some (λ _, Some [PStr "2024-01-03"])
           (λ _, Some []) Some Some sample_export
           "RELIANCE.NS" "analysis.json" false sound_engine empty_database
           two_days [golden (PStr "2024-01-03")]
           [stored 738000 100; stored 738001 (203 # 2)]
           [dated_signal "2024-01-03"]).
  - vm_compute. reflexivity.
  - exact Checks.two_days_valid.
  - split; repeat constructor.
  - exact engine_reliable.
  - reflexivity.
Defined.

(** X15 on the sample: the golden cross of the first run. *)
Lemma run_stores_crossover_events_sample :
  dated_signal "2024-01-03"
    ∈ rows_of
        (signal_events
           (sample_run [PStr "2024-01-03"] true sound_engine empty_database).2)
  ∧ (dated_signal "2024-01-03" ∈ rows_of (signal_events empty_database)
     ∨ (se_ticker (dated_signal "2024-01-03") = SText "RELIANCE.NS"
        ∧ (se_signal_type (dated_signal "2024-01-03") = SText "golden_cross"
           ∨ se_signal_type (dated_signal "2024-01-03") = SText "death_cross")
        ∧ se_meta (dated_signal "2024-01-03")
          = SText (py_str (Runtime := sample_runtime) (PObject "{}")))).
Proof.
  assert (dated_signal "2024-01-03"
            ∈ rows_of
                (signal_events
                   (sample_run [PStr "2024-01-03"] true sound_engine
                      empty_database).2)) as Hin.
  { vm_compute. left. }
  split; [exact Hin|].
  exact (run_stores_crossover_events (H := sample_runtime) DataFrame
           (λ _, Some two_days) Some (λ _, Some [PStr "2024-01-03"])
           (λ _, Some []) Some Some sample_export
           "RELIANCE.NS" "analysis.json" true sound_engine empty_database
           (dated_signal "2024-01-03") Hin).
Defined.

End MoreChecks.
